(** * doc-converter: the file-to-text extraction pipeline

    A shallow embedding of utils/fileParser.js ([extractTextFromFile],
    [extractTextFromPDF], [extractTextFromDOCX], [extractTextFromImage],
    [extractTextFromImageMultiLang]) and of its older copy
    src/utils/fileParser.js (module [Legacy]).

    - A JavaScript string is the list of its UTF-16 code units.
    - The libraries the module calls (File.arrayBuffer, pdf.js, mammoth,
      tesseract.js, FileReader) are an environment: each entry says what
      the library answers, a value or a rejection, and which logger
      messages the OCR engine produces on the way.
    - An [async] function is a computation in the monad [M]: it threads the
      mutable locals of the function, may throw, and writes the effects it
      performs (library calls, console output, calls of the progress
      callback) to a trace, oldest first.  [await] is sequencing: the
      module never runs two tasks at once.
    - The OCR confidence and the progress fractions are rationals; the
      only arithmetic the module does on them is the comparison with 60
      and the test against 0. *)

From Stdlib Require Import List String Ascii NArith ZArith QArith Bool Lia.
Import ListNotations.
Close Scope Q_scope.

(* ================================================================== *)
(** ** JavaScript strings *)

Module JsString.

(** A string is its sequence of UTF-16 code units. *)
Definition jsstring := list N.

(** A source literal made of ASCII characters. *)
Definition lit (s : string) : jsstring :=
  map N_of_ascii (list_ascii_of_string s).

Fixpoint eqb (a b : jsstring) : bool :=
  match a, b with
  | [], [] => true
  | x :: a', y :: b' => N.eqb x y && eqb a' b'
  | _, _ => false
  end.

(** [s.startsWith(p)] *)
Fixpoint startsWith (s p : jsstring) : bool :=
  match p, s with
  | [], _ => true
  | y :: p', x :: s' => N.eqb x y && startsWith s' p'
  | _ :: _, [] => false
  end.

(** [s.includes(p)] *)
Fixpoint includes (s p : jsstring) : bool :=
  startsWith s p ||
  match s with
  | [] => false
  | _ :: s' => includes s' p
  end.

(** ECMAScript WhiteSpace and LineTerminator code points, the characters
    [String.prototype.trim] strips.  All of them are in the Basic
    Multilingual Plane, so the test is on single code units. *)
Definition isWhiteSpace (c : N) : bool :=
  (N.leb 9 c && N.leb c 13)          (* TAB LF VT FF CR *)
  || N.eqb c 32                       (* SPACE *)
  || N.eqb c 160                      (* NBSP *)
  || N.eqb c 5760                     (* OGHAM SPACE MARK *)
  || (N.leb 8192 c && N.leb c 8202)   (* EN QUAD .. HAIR SPACE *)
  || N.eqb c 8232 || N.eqb c 8233     (* LINE / PARAGRAPH SEPARATOR *)
  || N.eqb c 8239                     (* NARROW NBSP *)
  || N.eqb c 8287                     (* MEDIUM MATHEMATICAL SPACE *)
  || N.eqb c 12288                    (* IDEOGRAPHIC SPACE *)
  || N.eqb c 65279.                   (* ZERO WIDTH NBSP / BOM *)

Fixpoint dropWhile (p : N -> bool) (s : jsstring) : jsstring :=
  match s with
  | [] => []
  | c :: s' => if p c then dropWhile p s' else s
  end.

Definition trimStart (s : jsstring) : jsstring := dropWhile isWhiteSpace s.
Definition trimEnd (s : jsstring) : jsstring :=
  rev (dropWhile isWhiteSpace (rev s)).

(** [s.trim()] *)
Definition trim (s : jsstring) : jsstring := trimEnd (trimStart s).

(** [arr.join(sep)] on an array of strings. *)
Fixpoint join (sep : jsstring) (arr : list jsstring) : jsstring :=
  match arr with
  | [] => []
  | [a] => a
  | a :: rest => a ++ sep ++ join sep rest
  end.

End JsString.
Import JsString.

(* ================================================================== *)
(** ** Values that cross the library boundary *)

(** A thrown value.  The module only ever reads its [message] property,
    which a value that is not an [Error] (tesseract.js rejects with plain
    strings) does not have. *)
Record thrown := { message : option jsstring }.

(** [new Error(msg)] *)
Definition Error (msg : jsstring) : thrown := {| message := Some msg |}.

(** [`${error.message}`] *)
Definition template (o : option jsstring) : jsstring :=
  match o with
  | Some m => m
  | None => lit "undefined"
  end.

(** What a library call settles with. *)
Inductive settled (A : Type) :=
| Resolved (a : A)
| Rejected (e : thrown).
Arguments Resolved {A} a.
Arguments Rejected {A} e.

(** The browser [File]. *)
Record File := {
  type : jsstring;
  name : jsstring;
  bytes : list N
}.

(** pdf.js: a text item, a page, a loaded document. *)
Record TextItem := { str : jsstring }.
Record PdfPage := { getTextContent : settled (list TextItem) }.
Record PdfDocument := {
  numPages : nat;
  getPage : nat -> settled PdfPage
}.

(** A number as the progress callbacks see it: a finite value, or
    [undefined] when the property is absent. *)
Inductive jsnumber :=
| Num (q : Q)
| Undefined.

(** [p || 0] *)
Definition orZero (p : jsnumber) : jsnumber :=
  match p with
  | Num q => if Qeq_bool q 0 then Num 0 else Num q
  | Undefined => Num 0
  end.

(** tesseract.js: a logger message, a recognition result, a worker. *)
Record LoggerMessage := { status : jsstring; progress : jsnumber }.
Record RecognitionData := { text : jsstring; confidence : Q }.
Record Worker := {
  (** [worker.recognize(file)]: the logger messages it produces, then how
      it settles. *)
  recognize : File -> list LoggerMessage * settled RecognitionData;
  (** [worker.terminate()] *)
  terminate : settled unit
}.

(** The libraries. *)
Record Env := {
  (** [file.arrayBuffer()] *)
  arrayBuffer : File -> settled (list N);
  (** [pdfjsLib.getDocument({ data }).promise] *)
  getDocument : list N -> settled PdfDocument;
  (** [mammoth.extractRawText({ arrayBuffer })], the [value] of the result *)
  extractRawText : list N -> settled jsstring;
  (** [createWorker(langs, 1, { logger, ... })]: the logger messages
      produced while the worker starts, then how the call settles. *)
  createWorker : jsstring -> list LoggerMessage * settled Worker
}.

(* ================================================================== *)
(** ** Effects *)

Inductive decoder :=
| PdfDecoder            (* extractTextFromPDF *)
| DocxDecoder           (* extractTextFromDOCX *)
| OcrDecoder            (* extractTextFromImage *)
| OcrMultiLangDecoder   (* extractTextFromImageMultiLang *)
| PlaceholderOcrDecoder (* extractTextFromImage of src/utils/fileParser.js *).

(** The console lines of the module, by call site. *)
Inductive console_line :=
| LogStartingOcr (file_name : jsstring)
| LogStartingOcrLanguages (languages : jsstring)
| LogOcrProgress (m : LoggerMessage)
| LogWorkerCreated
| LogOcrCompleted (confidence : Q)
| LogMultiLangOcrCompleted (confidence : Q)
| WarnLowConfidence (confidence : Q)
| ErrorOcr (e : thrown)
| ErrorMultiLangOcr (e : thrown)
| LogWorkerTerminated
| WarnTerminateFailed (e : thrown)
| ErrorExtracting (e : thrown).

Inductive event :=
| Enter (d : decoder)                 (* control enters a decoder's body *)
| Console (l : console_line)
| CallArrayBuffer
| CallGetDocument
| CallGetPage (pageNum : nat)
| CallGetTextContent (pageNum : nat)
| CallExtractRawText
| CallCreateWorker (langs : jsstring)
| CallRecognize
| CallTerminate
| CallReadAsDataURL
| Sink (m : LoggerMessage).           (* onProgress({status, progress}),
                                         taken to return normally *)

Inductive completion (A : Type) :=
| Return (a : A)
| Throw (e : thrown).
Arguments Return {A} a.
Arguments Throw {A} e.

(** A computation over mutable locals [L]. *)
Definition M (L A : Type) := L -> completion A * L * list event.

Definition ret {L A} (a : A) : M L A := fun l => (Return a, l, []).

Definition bind {L A B} (m : M L A) (k : A -> M L B) : M L B :=
  fun l =>
    match m l with
    | (Return a, l1, t1) =>
        let '(r, l2, t2) := k a l1 in (r, l2, t1 ++ t2)
    | (Throw e, l1, t1) => (Throw e, l1, t1)
    end.

Definition throw {L A} (e : thrown) : M L A := fun l => (Throw e, l, []).

Definition emit {L} (ev : event) : M L unit := fun l => (Return tt, l, [ev]).

Definition getLocal {L} : M L L := fun l => (Return l, l, []).
Definition setLocal {L} (v : L) : M L unit := fun _ => (Return tt, v, []).

(** [try { m } catch (error) { h error }] *)
Definition tryCatch {L A} (m : M L A) (h : thrown -> M L A) : M L A :=
  fun l =>
    match m l with
    | (Throw e, l1, t1) =>
        let '(r, l2, t2) := h e l1 in (r, l2, t1 ++ t2)
    | done => done
    end.

(** [try { m } finally { f }]: [f] runs on both exits; when it completes
    normally the completion of [m] stands, when it throws its exception
    replaces it. *)
Definition tryFinally {L A} (m : M L A) (f : M L unit) : M L A :=
  fun l =>
    let '(r, l1, t1) := m l in
    match f l1 with
    | (Return _, l2, t2) => (r, l2, t1 ++ t2)
    | (Throw e, l2, t2) => (Throw e, l2, t1 ++ t2)
    end.

(** Calling a function: it runs on its own locals, initialised to [init]. *)
Definition call {L L' A} (init : L') (m : M L' A) : M L A :=
  fun l => let '(r, _, t) := m init in (r, l, t).

(** Awaiting a settled promise. *)
Definition await {L A} (s : settled A) : M L A :=
  match s with
  | Resolved a => ret a
  | Rejected e => throw e
  end.

Declare Scope js_scope.
Delimit Scope js_scope with js.
Notation "x <- m ;; k" := (bind m (fun x => k))
  (at level 100, m at next level, right associativity) : js_scope.
Notation "m ;; k" := (bind m (fun _ => k))
  (at level 100, right associativity) : js_scope.
Open Scope js_scope.

Definition result_of {A L} (r : completion A * L * list event) : completion A :=
  fst (fst r).
Definition trace_of {A L} (r : completion A * L * list event) : list event :=
  snd r.

(* ================================================================== *)
(** ** utils/fileParser.js *)

Section FileParser.

Variable env : Env.

(** *** extractTextFromPDF *)

(** The [for] loop over the pages: [remaining] iterations are left, the
    next one reads page [pageNum] and appends to [fullText]. *)
Fixpoint pdfPageLoop {L} (pdf : PdfDocument) (remaining pageNum : nat)
    (fullText : jsstring) : M L jsstring :=
  match remaining with
  | O => ret fullText
  | S remaining' =>
      emit (CallGetPage pageNum);;
      page <- await (getPage pdf pageNum);;
      emit (CallGetTextContent pageNum);;
      items <- await (getTextContent page);;
      let pageText := join (lit " ") (map str items) in
      pdfPageLoop pdf remaining' (S pageNum)
        (fullText ++ pageText ++ [10; 10]%N)
  end.

Definition extractTextFromPDF {L} (file : File) : M L jsstring :=
  call tt
    (emit (Enter PdfDecoder);;
     emit CallArrayBuffer;;
     buffer <- await (arrayBuffer env file);;
     emit CallGetDocument;;
     pdf <- await (getDocument env buffer);;
     fullText <- pdfPageLoop pdf (numPages pdf) 1 [];;
     ret (trim fullText)).

(** *** extractTextFromDOCX *)

Definition extractTextFromDOCX {L} (file : File) : M L jsstring :=
  call tt
    (emit (Enter DocxDecoder);;
     emit CallArrayBuffer;;
     buffer <- await (arrayBuffer env file);;
     emit CallExtractRawText;;
     value <- await (extractRawText env buffer);;
     ret value).

(** *** The tesseract.js worker, as the module drives it *)

Fixpoint forEach {L A} (f : A -> M L unit) (xs : list A) : M L unit :=
  match xs with
  | [] => ret tt
  | x :: xs' => f x;; forEach f xs'
  end.

(** [createWorker(langs, 1, { logger, ... })]: the engine calls [logger]
    on each message while it starts, then the promise settles. *)
Definition awaitCreateWorker {L} (langs : jsstring)
    (logger : LoggerMessage -> M L unit) : M L Worker :=
  emit (CallCreateWorker langs);;
  forEach logger (fst (createWorker env langs));;
  await (snd (createWorker env langs)).

(** [worker.recognize(file)], the worker still calling the [logger] it
    was created with; the [data] of the result. *)
Definition awaitRecognize {L} (worker : Worker)
    (logger : LoggerMessage -> M L unit) (file : File)
    : M L RecognitionData :=
  emit CallRecognize;;
  forEach logger (fst (recognize worker file));;
  await (snd (recognize worker file)).

(** [!text || text.trim().length === 0] *)
Definition noText (text : jsstring) : bool :=
  match text with
  | [] => true
  | _ => Nat.eqb (List.length (trim text)) 0
  end.

(** [confidence < bound] *)
Definition lessThan (confidence bound : Q) : bool :=
  negb (Qle_bool bound confidence).

(** *** extractTextFromImage *)

Definition statusRecognizing := lit "recognizing text".
Definition statusLoadingCore := lit "loading tesseract core".
Definition statusInitializing := lit "initializing tesseract".
Definition statusLoadingLanguage := lit "loading language traineddata".

(** The [logger] closure; [onProgress] tells whether the caller gave a
    progress callback ([null] otherwise). *)
Definition logger {L} (onProgress : bool) (m : LoggerMessage) : M L unit :=
  emit (Console (LogOcrProgress m));;
  if onProgress then
    if JsString.eqb (status m) statusRecognizing then
      emit (Sink {| status := status m; progress := progress m |})
    else if JsString.eqb (status m) statusLoadingCore
            || JsString.eqb (status m) statusInitializing
            || JsString.eqb (status m) statusLoadingLanguage then
      emit (Sink {| status := status m; progress := orZero (progress m) |})
    else ret tt
  else ret tt.

Definition msgNoText := lit
  "No text could be recognized in the image. The image may be too blurry, low quality, or may not contain any text.".
Definition msgRecognitionFailed := lit
  "Failed to recognize text in image. Please ensure the image contains clear, readable text.".
Definition msgOcrFailedPrefix := lit "OCR processing failed: ".

(** [error.message && error.message.includes('recognize')] *)
Definition mentionsRecognize (error : thrown) : bool :=
  match message error with
  | Some m =>
      match m with
      | [] => false
      | _ => includes m (lit "recognize")
      end
  | None => false
  end.

Definition extractTextFromImage {L} (file : File) (onProgress : bool)
    : M L jsstring :=
  call (@None Worker)
    (emit (Enter OcrDecoder);;
     tryFinally
       (tryCatch
          (emit (Console (LogStartingOcr (name file)));;
           worker <- awaitCreateWorker (lit "eng") (logger onProgress);;
           setLocal (Some worker);;
           emit (Console LogWorkerCreated);;
           data <- awaitRecognize worker (logger onProgress) file;;
           emit (Console (LogOcrCompleted (confidence data)));;
           (if noText (text data) then throw (Error msgNoText)
            else ret tt);;
           (if lessThan (confidence data) 60
            then emit (Console (WarnLowConfidence (confidence data)))
            else ret tt);;
           ret (trim (text data)))
          (fun error =>
             emit (Console (ErrorOcr error));;
             (if mentionsRecognize error
              then throw (Error msgRecognitionFailed)
              else ret tt);;
             throw (Error (msgOcrFailedPrefix ++ template (message error)))))
       (worker <- getLocal;;
        match worker with
        | Some w =>
            tryCatch
              (emit CallTerminate;;
               await (terminate w);;
               emit (Console LogWorkerTerminated))
              (fun e => emit (Console (WarnTerminateFailed e)))
        | None => ret tt
        end)).

(** *** extractTextFromImageMultiLang *)

Definition loggerMultiLang {L} (onProgress : bool) (m : LoggerMessage)
    : M L unit :=
  emit (Console (LogOcrProgress m));;
  if onProgress then
    emit (Sink {| status := status m; progress := orZero (progress m) |})
  else ret tt.

Definition msgNoTextMultiLang := lit
  "No text could be recognized in the image.".

Definition extractTextFromImageMultiLang {L} (file : File)
    (languages : list jsstring) (onProgress : bool) : M L jsstring :=
  call (@None Worker)
    (emit (Enter OcrMultiLangDecoder);;
     tryFinally
       (tryCatch
          (emit (Console
                   (LogStartingOcrLanguages (join (lit ", ") languages)));;
           let langString := join (lit "+") languages in
           worker <- awaitCreateWorker langString
                       (loggerMultiLang onProgress);;
           setLocal (Some worker);;
           data <- awaitRecognize worker (loggerMultiLang onProgress) file;;
           emit (Console (LogMultiLangOcrCompleted (confidence data)));;
           (if noText (text data) then throw (Error msgNoTextMultiLang)
            else ret tt);;
           ret (trim (text data)))
          (fun error =>
             emit (Console (ErrorMultiLangOcr error));;
             throw (Error (msgOcrFailedPrefix ++ template (message error)))))
       (worker <- getLocal;;
        match worker with
        | Some w =>
            tryCatch
              (emit CallTerminate;;
               await (terminate w))
              (fun e => emit (Console (WarnTerminateFailed e)))
        | None => ret tt
        end)).

(** *** extractTextFromFile *)

Definition mimePdf := lit "application/pdf".
Definition mimeDocx := lit
  "application/vnd.openxmlformats-officedocument.wordprocessingml.document".
Definition mimeImagePrefix := lit "image/".
Definition msgUnsupported := lit "Unsupported file type".
Definition msgExtractFailedPrefix := lit "Failed to extract text: ".

Definition extractTextFromFile (file : File) (onProgress : bool)
    : M unit jsstring :=
  let fileType := type file in
  tryCatch
    (if JsString.eqb fileType mimePdf then
       extractTextFromPDF file
     else if JsString.eqb fileType mimeDocx then
       extractTextFromDOCX file
     else if startsWith fileType mimeImagePrefix then
       extractTextFromImage file onProgress
     else
       throw (Error msgUnsupported))
    (fun error =>
       emit (Console (ErrorExtracting error));;
       throw (Error (msgExtractFailedPrefix ++ template (message error)))).

End FileParser.

(* ================================================================== *)
(** ** src/utils/fileParser.js

    The second copy of the module in the repository.  Its dispatcher and
    its PDF and DOCX decoders are the same; its image decoder is a
    placeholder that reads the file with a [FileReader] and resolves with
    a fixed text. *)

Module Legacy.

Section FileParser.

Variable env : Env.

(** [reader.readAsDataURL(file)]: [true] when the reader fires [onload],
    [false] when it fires [onerror]. *)
Variable readAsDataURL : File -> bool.

Definition mockOCRText (file : File) : jsstring :=
  lit "This is extracted text from the image: " ++ name file ++ [10%N]
  ++ lit "        " ++ [10%N]
  ++ lit "The image appears to contain a document with multiple paragraphs of text."
  ++ [10%N]
  ++ lit "This is a placeholder response that simulates OCR text extraction."
  ++ [10%N; 10%N]
  ++ lit "In a production environment, this would be replaced with actual OCR processing"
  ++ [10%N]
  ++ lit "using a service like Google Cloud Vision, AWS Textract, or Tesseract.js.".

(** The promise is resolved by [onload] (after a timer that always fires)
    and rejected by [onerror]. *)
Definition extractTextFromImage {L} (file : File) : M L jsstring :=
  call tt
    (emit (Enter PlaceholderOcrDecoder);;
     emit CallReadAsDataURL;;
     if readAsDataURL file then
       tryCatch
         (ret (mockOCRText file))
         (fun _ => throw (Error (lit "OCR processing failed")))
     else
       throw (Error (lit "Failed to read image file"))).

Definition extractTextFromFile (file : File) : M unit jsstring :=
  let fileType := type file in
  tryCatch
    (if JsString.eqb fileType mimePdf then
       extractTextFromPDF env file
     else if JsString.eqb fileType mimeDocx then
       extractTextFromDOCX env file
     else if startsWith fileType mimeImagePrefix then
       extractTextFromImage file
     else
       throw (Error msgUnsupported))
    (fun error =>
       emit (Console (ErrorExtracting error));;
       throw (Error (msgExtractFailedPrefix ++ template (message error)))).

End FileParser.

End Legacy.

(* ================================================================== *)
(** ** Reading runs: traces, expected outcomes, scenarios *)

Module Scenario.

Definition unavailable : thrown := Error (lit "not available").

(** Libraries that reject every call. *)
Definition noLibraries : Env :=
  {| arrayBuffer := fun _ => Rejected unavailable;
     getDocument := fun _ => Rejected unavailable;
     extractRawText := fun _ => Rejected unavailable;
     createWorker := fun _ => ([], Rejected unavailable) |}.

(** A document with the given text fragments on its pages. *)
Definition pdfOfPages (pages : list (list jsstring)) : PdfDocument :=
  {| numPages := List.length pages;
     getPage := fun pageNum =>
       match pageNum with
       | O => Rejected (Error (lit "Invalid page request"))
       | S k =>
           match nth_error pages k with
           | Some fragments =>
               Resolved {| getTextContent :=
                 Resolved (map (fun s => {| str := s |}) fragments) |}
           | None => Rejected (Error (lit "Invalid page request"))
           end
       end |}.

(** pdf.js reading every buffer as the document with these pages. *)
Definition pdfEnv (pages : list (list jsstring)) : Env :=
  {| arrayBuffer := fun f => Resolved (bytes f);
     getDocument := fun _ => Resolved (pdfOfPages pages);
     extractRawText := fun _ => Rejected unavailable;
     createWorker := fun _ => ([], Rejected unavailable) |}.

(** mammoth reading every buffer as a document with this raw text. *)
Definition docxEnv (value : jsstring) : Env :=
  {| arrayBuffer := fun f => Resolved (bytes f);
     getDocument := fun _ => Rejected unavailable;
     extractRawText := fun _ => Resolved value;
     createWorker := fun _ => ([], Rejected unavailable) |}.

(** tesseract.js: a worker that starts with [starting] messages,
    recognizes with [recognizing] messages and settles as given. *)
Definition ocrEnv (starting recognizing : list LoggerMessage)
    (outcome : settled RecognitionData) (terminated : settled unit) : Env :=
  {| arrayBuffer := fun f => Resolved (bytes f);
     getDocument := fun _ => Rejected unavailable;
     extractRawText := fun _ => Rejected unavailable;
     createWorker := fun _ =>
       (starting,
        Resolved {| recognize := fun _ => (recognizing, outcome);
                    terminate := terminated |}) |}.

Definition pdfFile : File :=
  {| type := mimePdf; name := lit "a.pdf"; bytes := [37; 80; 68; 70]%N |}.
Definition docxFile : File :=
  {| type := mimeDocx; name := lit "a.docx"; bytes := [80; 75]%N |}.
Definition pngFile : File :=
  {| type := lit "image/png"; name := lit "a.png"; bytes := [137; 80]%N |}.
Definition txtFile : File :=
  {| type := lit "text/plain"; name := lit "a.txt"; bytes := [104; 105]%N |}.

(** E2E scenario A: page 1 holds "Hello" and "World", page 2 "Foo". *)
Definition scenarioA : Env :=
  pdfEnv [[lit "Hello"; lit "World"]; [lit "Foo"]].

(** E2E scenario B: three progress messages, then the text
    "  Invoice #123  " with confidence 88. *)
Definition scenarioB : Env :=
  ocrEnv
    [ {| status := statusInitializing; progress := Num 0 |} ]
    [ {| status := statusRecognizing; progress := Num (1 # 2) |};
      {| status := statusRecognizing; progress := Num 1 |} ]
    (Resolved {| text := lit "  Invoice #123  "; confidence := 88 |})
    (Resolved tt).

(** E2E scenario C: recognition resolves with no text, confidence 95. *)
Definition scenarioC : Env :=
  ocrEnv [] [] (Resolved {| text := []; confidence := 95 |})
    (Resolved tt).

End Scenario.

(** The decoders control entered, in order. *)
Definition entered (t : list event) : list decoder :=
  flat_map (fun ev => match ev with Enter d => [d] | _ => [] end) t.

(** How many times [worker.terminate()] was called. *)
Definition terminations (t : list event) : nat :=
  List.length (filter (fun ev => match ev with CallTerminate => true | _ => false end) t).

(** What the progress callback was called with, in order. *)
Definition sinkCalls (t : list event) : list LoggerMessage :=
  flat_map (fun ev => match ev with Sink m => [m] | _ => [] end) t.

(** The four stages the single-language logger knows. *)
Definition enumeratedStages : list jsstring :=
  [statusLoadingCore; statusInitializing; statusLoadingLanguage;
   statusRecognizing].

Definition isEnumeratedStage (m : LoggerMessage) : bool :=
  existsb (JsString.eqb (status m)) enumeratedStages.

(** What the single-language logger hands to the callback. *)
Definition payload (m : LoggerMessage) : LoggerMessage :=
  {| status := status m;
     progress := if JsString.eqb (status m) statusRecognizing
                 then progress m else orZero (progress m) |}.

(** What the multi-language logger hands to the callback. *)
Definition payloadMultiLang (m : LoggerMessage) : LoggerMessage :=
  {| status := status m; progress := orZero (progress m) |}.

(** The trace of one call of [logger]. *)
Definition loggerTrace (onProgress : bool) (m : LoggerMessage) : list event :=
  Console (LogOcrProgress m) ::
  (if onProgress && isEnumeratedStage m then [Sink (payload m)] else []).

(** The trace of one call of [loggerMultiLang]. *)
Definition loggerMultiLangTrace (onProgress : bool) (m : LoggerMessage)
    : list event :=
  Console (LogOcrProgress m) ::
  (if onProgress then [Sink (payloadMultiLang m)] else []).

(** The trace of the [finally] block of an OCR decoder when a worker was
    created; [logTerminated] tells whether the block logs the termination
    (the single-language decoder does). *)
Definition terminateTrace (logTerminated : bool) (w : Worker) : list event :=
  CallTerminate ::
  match terminate w with
  | Resolved _ => if logTerminated then [Console LogWorkerTerminated] else []
  | Rejected e => [Console (WarnTerminateFailed e)]
  end.

(** What the [catch] block of [extractTextFromImage] throws for [error]. *)
Definition ocrFailure (error : thrown) : thrown :=
  if mentionsRecognize error then Error msgRecognitionFailed
  else Error (msgOcrFailedPrefix ++ template (message error)).

(** What the [catch] block of [extractTextFromImageMultiLang] throws. *)
Definition ocrMultiLangFailure (error : thrown) : thrown :=
  Error (msgOcrFailedPrefix ++ template (message error)).

(** The text of one page: its fragments joined by single spaces. *)
Definition pageText (items : list TextItem) : jsstring :=
  join (lit " ") (map str items).

(** The library calls of the page loop over pages [first .. first+n-1]. *)
Definition pageCalls (first n : nat) : list event :=
  flat_map (fun k => [CallGetPage k; CallGetTextContent k]) (seq first n).

(** The items of pages [first .. first+n-1] of [pdf], when every one of
    them can be read. *)
Fixpoint readPages (pdf : PdfDocument) (n first : nat)
    : option (list (list TextItem)) :=
  match n with
  | O => Some []
  | S n' =>
      match getPage pdf first with
      | Resolved page =>
          match getTextContent page with
          | Resolved items =>
              option_map (cons items) (readPages pdf n' (S first))
          | Rejected _ => None
          end
      | Rejected _ => None
      end
  end.

(** The [try]/[catch] of [extractTextFromFile] around a decoder run. *)
Definition wrapped (e : thrown) : thrown :=
  Error (msgExtractFailedPrefix ++ template (message e)).

Definition dispatched {A L} (r : completion A * L * list event)
    : completion A * L * list event :=
  match r with
  | (Return a, l, t) => (Return a, l, t)
  | (Throw e, l, t) => (Throw (wrapped e), l, t ++ [Console (ErrorExtracting e)])
  end.

(** The contract of the PDF decoder in the words of the specification:
    the fragments of a page are joined by single spaces, the pages are
    joined, in order, by a blank line (two newline characters), and the
    result is trimmed. *)
Definition decodePdfSpec (pages : list (list jsstring)) : jsstring :=
  trim (join [10; 10]%N (map (join (lit " ")) pages)).

(** The logger messages the engine delivers during one OCR call: those of
    the start of the worker, then, when a worker was created, those of the
    recognition. *)
Definition delivered (env : Env) (langs : jsstring) (file : File)
    : list LoggerMessage :=
  fst (createWorker env langs)
  ++ match snd (createWorker env langs) with
     | Resolved w => fst (recognize w file)
     | Rejected _ => []
     end.

(* ================================================================== *)
(** ** Reading runs: further observations *)

(** One iteration of the page loop on page [n]: how reading the page
    settles and the library calls made on the way. *)
Definition readPage (pdf : PdfDocument) (n : nat)
    : settled (list TextItem) * list event :=
  match getPage pdf n with
  | Rejected e => (Rejected e, [CallGetPage n])
  | Resolved page =>
      (getTextContent page, [CallGetPage n; CallGetTextContent n])
  end.

(** The language strings [createWorker] was called with, in order. *)
Definition createdWith (t : list event) : list jsstring :=
  flat_map (fun ev => match ev with CallCreateWorker l => [l] | _ => [] end) t.

(** How many times [worker.recognize] was called. *)
Definition recognitions (t : list event) : nat :=
  List.length
    (filter (fun ev => match ev with CallRecognize => true | _ => false end) t).

(** A trace without the calls of the progress callback. *)
Definition withoutSinks (t : list event) : list event :=
  filter (fun ev => match ev with Sink _ => false | _ => true end) t.




(** Further concrete library behaviours. *)
Module Cases.

(** A document that announces three pages but only has the first. *)
Definition truncatedPdf : PdfDocument :=
  {| numPages := 3;
     getPage := getPage (Scenario.pdfOfPages [[lit "A"]]) |}.

Definition truncatedPdfEnv : Env :=
  {| arrayBuffer := fun f => Resolved (bytes f);
     getDocument := fun _ => Resolved truncatedPdf;
     extractRawText := fun _ => Rejected Scenario.unavailable;
     createWorker := fun _ => ([], Rejected Scenario.unavailable) |}.



(** A message of the engine without a progress property. *)
Definition bareMessage : LoggerMessage :=
  {| status := statusRecognizing; progress := Undefined |}.

(** Scenario B with one more message, which has no progress. *)
Definition scenarioBare : Env :=
  Scenario.ocrEnv
    [ {| status := statusInitializing; progress := Num 0 |} ]
    [ bareMessage;
      {| status := statusRecognizing; progress := Num 1 |} ]
    (Resolved {| text := lit "  Invoice #123  "; confidence := 88 |})
    (Resolved tt).

End Cases.

(* ================================================================== *)
(** ** App.jsx (the version with OCR progress): the handlers

    The React state of the component is a record; a setter replaces one
    field.  Two more fields keep what the handlers sent to the
    summarization service (utils/aiService.js), which is part of the
    environment: [generateSummary] and [improveSummary] say how the
    promise of a request settles.  [Math.round(p * 100)] on doubles is the
    parameter [roundPercent]. *)

Module App.

(** The [error] state: [null], [undefined] or a string. *)
Inductive errorValue :=
| NoError
| ErrorUndefined
| ErrorMessage (m : jsstring).

Record State := {
  uploadedFile : option File;
  extractedText : jsstring;
  editorContent : jsstring;
  isProcessing : bool;
  isImproving : bool;
  error : errorValue;
  processingStage : jsstring;
  showImprovementModal : bool;
  ocrProgress : Z;
  summaryRequests : list jsstring;
  improveRequests : list (jsstring * jsstring)
}.

Definition withUploadedFile (v : option File) (s : State) : State :=
  {| uploadedFile := v;
     extractedText := extractedText s;
     editorContent := editorContent s;
     isProcessing := isProcessing s;
     isImproving := isImproving s;
     error := error s;
     processingStage := processingStage s;
     showImprovementModal := showImprovementModal s;
     ocrProgress := ocrProgress s;
     summaryRequests := summaryRequests s;
     improveRequests := improveRequests s |}.

Definition withExtractedText (v : jsstring) (s : State) : State :=
  {| uploadedFile := uploadedFile s;
     extractedText := v;
     editorContent := editorContent s;
     isProcessing := isProcessing s;
     isImproving := isImproving s;
     error := error s;
     processingStage := processingStage s;
     showImprovementModal := showImprovementModal s;
     ocrProgress := ocrProgress s;
     summaryRequests := summaryRequests s;
     improveRequests := improveRequests s |}.

Definition withEditorContent (v : jsstring) (s : State) : State :=
  {| uploadedFile := uploadedFile s;
     extractedText := extractedText s;
     editorContent := v;
     isProcessing := isProcessing s;
     isImproving := isImproving s;
     error := error s;
     processingStage := processingStage s;
     showImprovementModal := showImprovementModal s;
     ocrProgress := ocrProgress s;
     summaryRequests := summaryRequests s;
     improveRequests := improveRequests s |}.

Definition withIsProcessing (v : bool) (s : State) : State :=
  {| uploadedFile := uploadedFile s;
     extractedText := extractedText s;
     editorContent := editorContent s;
     isProcessing := v;
     isImproving := isImproving s;
     error := error s;
     processingStage := processingStage s;
     showImprovementModal := showImprovementModal s;
     ocrProgress := ocrProgress s;
     summaryRequests := summaryRequests s;
     improveRequests := improveRequests s |}.

Definition withIsImproving (v : bool) (s : State) : State :=
  {| uploadedFile := uploadedFile s;
     extractedText := extractedText s;
     editorContent := editorContent s;
     isProcessing := isProcessing s;
     isImproving := v;
     error := error s;
     processingStage := processingStage s;
     showImprovementModal := showImprovementModal s;
     ocrProgress := ocrProgress s;
     summaryRequests := summaryRequests s;
     improveRequests := improveRequests s |}.

Definition withError (v : errorValue) (s : State) : State :=
  {| uploadedFile := uploadedFile s;
     extractedText := extractedText s;
     editorContent := editorContent s;
     isProcessing := isProcessing s;
     isImproving := isImproving s;
     error := v;
     processingStage := processingStage s;
     showImprovementModal := showImprovementModal s;
     ocrProgress := ocrProgress s;
     summaryRequests := summaryRequests s;
     improveRequests := improveRequests s |}.

Definition withProcessingStage (v : jsstring) (s : State) : State :=
  {| uploadedFile := uploadedFile s;
     extractedText := extractedText s;
     editorContent := editorContent s;
     isProcessing := isProcessing s;
     isImproving := isImproving s;
     error := error s;
     processingStage := v;
     showImprovementModal := showImprovementModal s;
     ocrProgress := ocrProgress s;
     summaryRequests := summaryRequests s;
     improveRequests := improveRequests s |}.

Definition withShowImprovementModal (v : bool) (s : State) : State :=
  {| uploadedFile := uploadedFile s;
     extractedText := extractedText s;
     editorContent := editorContent s;
     isProcessing := isProcessing s;
     isImproving := isImproving s;
     error := error s;
     processingStage := processingStage s;
     showImprovementModal := v;
     ocrProgress := ocrProgress s;
     summaryRequests := summaryRequests s;
     improveRequests := improveRequests s |}.

Definition withOcrProgress (v : Z) (s : State) : State :=
  {| uploadedFile := uploadedFile s;
     extractedText := extractedText s;
     editorContent := editorContent s;
     isProcessing := isProcessing s;
     isImproving := isImproving s;
     error := error s;
     processingStage := processingStage s;
     showImprovementModal := showImprovementModal s;
     ocrProgress := v;
     summaryRequests := summaryRequests s;
     improveRequests := improveRequests s |}.

Definition withSummaryRequests (v : list jsstring) (s : State) : State :=
  {| uploadedFile := uploadedFile s;
     extractedText := extractedText s;
     editorContent := editorContent s;
     isProcessing := isProcessing s;
     isImproving := isImproving s;
     error := error s;
     processingStage := processingStage s;
     showImprovementModal := showImprovementModal s;
     ocrProgress := ocrProgress s;
     summaryRequests := v;
     improveRequests := improveRequests s |}.

Definition withImproveRequests (v : list (jsstring * jsstring)) (s : State) : State :=
  {| uploadedFile := uploadedFile s;
     extractedText := extractedText s;
     editorContent := editorContent s;
     isProcessing := isProcessing s;
     isImproving := isImproving s;
     error := error s;
     processingStage := processingStage s;
     showImprovementModal := showImprovementModal s;
     ocrProgress := ocrProgress s;
     summaryRequests := summaryRequests s;
     improveRequests := v |}.

Definition update (f : State -> State) : M State unit :=
  fun s => (Return tt, f s, []).

Definition setUploadedFile (v : option File) : M State unit := update (withUploadedFile v).
Definition setExtractedText (v : jsstring) : M State unit := update (withExtractedText v).
Definition setEditorContent (v : jsstring) : M State unit := update (withEditorContent v).
Definition setIsProcessing (v : bool) : M State unit := update (withIsProcessing v).
Definition setIsImproving (v : bool) : M State unit := update (withIsImproving v).
Definition setError (v : errorValue) : M State unit := update (withError v).
Definition setProcessingStage (v : jsstring) : M State unit := update (withProcessingStage v).
Definition setShowImprovementModal (v : bool) : M State unit := update (withShowImprovementModal v).
Definition setOcrProgress (v : Z) : M State unit := update (withOcrProgress v).

(** [setError(err.message)] *)
Definition errorOf (err : thrown) : errorValue :=
  match message err with
  | Some m => ErrorMessage m
  | None => ErrorUndefined
  end.

Definition msgNoTextExtracted := lit
  "No text could be extracted from the file. Please ensure the file contains readable text.".
Definition msgSummaryFailed := lit
  "Failed to generate summary. Please try again.".
Definition msgImproveFailed := lit
  "Failed to improve content. Please try again.".

Section Handlers.

Variable env : Env.
Variable generateSummary : jsstring -> settled jsstring.
Variable improveSummary : jsstring -> jsstring -> settled jsstring.
Variable roundPercent : Q -> Z.

(** [await generateSummary(text)] *)
Definition awaitGenerateSummary (text : jsstring) : M State jsstring :=
  update (fun s => withSummaryRequests (summaryRequests s ++ [text]) s);;
  await (generateSummary text).

(** [await improveSummary(content, instructions)] *)
Definition awaitImproveSummary (content instructions : jsstring)
    : M State jsstring :=
  update (fun s =>
            withImproveRequests (improveRequests s ++ [(content, instructions)])
              s);;
  await (improveSummary content instructions).

(** [handleOcrProgress], the callback given to [extractTextFromFile]. *)
Definition handleOcrProgress (progressData : LoggerMessage) : M State unit :=
  match progress progressData with
  | Num p =>
      if Qeq_bool p 0 then ret tt
      else setOcrProgress (roundPercent p)
  | Undefined => ret tt
  end.

(** [await extractTextFromFile(file, callback)]: the extraction runs on
    its own locals; each call it makes of the progress callback runs
    [callback] on the state of the component, in order. *)
Definition awaitExtraction (extraction : M unit jsstring)
    (callback : LoggerMessage -> M State unit) : M State jsstring :=
  fun s =>
    let '(r, _, t) := extraction tt in
    (r,
     fold_left (fun s' progressData => snd (fst (callback progressData s')))
       (sinkCalls t) s,
     t).

Definition handleFileUpload (file : File) : M State unit :=
  setError NoError;;
  setIsProcessing true;;
  setProcessingStage (lit "uploading");;
  setUploadedFile (Some file);;
  setExtractedText [];;
  setEditorContent [];;
  setOcrProgress 0;;
  tryFinally
    (tryCatch
       (setProcessingStage (lit "extracting");;
        text <- awaitExtraction (extractTextFromFile env file true)
                  handleOcrProgress;;
        (if noText text then throw (Error msgNoTextExtracted) else ret tt);;
        setExtractedText text;;
        setOcrProgress 0;;
        setProcessingStage (lit "summarizing");;
        summary <- awaitGenerateSummary text;;
        (if noText summary then throw (Error msgSummaryFailed) else ret tt);;
        setEditorContent summary;;
        setProcessingStage [])
       (fun err =>
          setError (errorOf err);;
          setProcessingStage [];;
          setOcrProgress 0))
    (setIsProcessing false).


Definition handleImproveWithAI (instructions : jsstring) : M State unit :=
  s <- getLocal;;
  setShowImprovementModal false;;
  setError NoError;;
  setIsImproving true;;
  tryFinally
    (tryCatch
       (improvedContent <- awaitImproveSummary (editorContent s) instructions;;
        (if noText improvedContent then throw (Error msgImproveFailed)
         else ret tt);;
        setEditorContent improvedContent)
       (fun err => setError (errorOf err)))
    (setIsImproving false).

Definition handleEditorChange (content : jsstring) : M State unit :=
  setEditorContent content.

End Handlers.

(** The state of the component when it is mounted. *)
Definition initialState : State :=
  {| uploadedFile := None; extractedText := []; editorContent := [];
     isProcessing := false; isImproving := false; error := NoError;
     processingStage := []; showImprovementModal := false; ocrProgress := 0;
     summaryRequests := []; improveRequests := [] |}.

End App.

(* ================================================================== *)
(** ** components/DocumentUploader.jsx: validation and hand-over

    The component has its own state and calls the [onFileUpload] of its
    parent, which works on the parent's state [P]: a handler of the
    component is a computation on both. *)

Module DocumentUploader.

Definition SUPPORTED_FILE_TYPES : list (jsstring * jsstring) :=
  [ (lit "application/pdf", lit ".pdf");
    (lit "application/vnd.openxmlformats-officedocument.wordprocessingml.document",
     lit ".docx");
    (lit "image/png", lit ".png");
    (lit "image/jpeg", lit ".jpg,.jpeg") ].

Definition MAX_FILE_SIZE : N := 10 * 1024 * 1024.

(** [file.size]: the number of bytes of the file. *)
Definition size (file : File) : N := N.of_nat (List.length (bytes file)).

(** [array.includes(s)] on an array of strings. *)
Definition arrayIncludes (array : list jsstring) (s : jsstring) : bool :=
  existsb (fun x => JsString.eqb x s) array.

Record State := {
  isDragging : bool;
  validationError : option jsstring   (* [None] is [null] *)
}.

Definition msgUnsupportedType := lit
  "Unsupported file type. Please upload a PDF, DOCX, PNG, or JPEG file.".
Definition msgTooLarge := lit
  "File size exceeds 10MB limit. Please upload a smaller file.".

Section Component.

Context {P : Type}.

(** The props [onFileUpload] and [disabled]. *)
Variable onFileUpload : File -> M P unit.
Variable disabled : bool.

Definition setIsDragging (v : bool) : M (State * P) unit :=
  fun s =>
    (Return tt,
     ({| isDragging := v; validationError := validationError (fst s) |},
      snd s),
     []).

Definition setValidationError (v : option jsstring) : M (State * P) unit :=
  fun s =>
    (Return tt,
     ({| isDragging := isDragging (fst s); validationError := v |}, snd s),
     []).

(** [onFileUpload(file)]: the parent's handler is an async function whose
    promise the component drops; it runs on the parent's state and what it
    settles with is not seen here. *)
Definition callOnFileUpload (file : File) : M (State * P) unit :=
  fun s =>
    let '(_, p, t) := onFileUpload file (snd s) in
    (Return tt, (fst s, p), t).

Definition validateFile (file : File) : M (State * P) bool :=
  setValidationError None;;
  if negb (arrayIncludes (map fst SUPPORTED_FILE_TYPES) (type file)) then
    setValidationError (Some msgUnsupportedType);;
    ret false
  else if N.ltb MAX_FILE_SIZE (size file) then
    setValidationError (Some msgTooLarge);;
    ret false
  else
    ret true.

Definition handleFile (file : File) : M (State * P) unit :=
  valid <- validateFile file;;
  if valid then callOnFileUpload file else ret tt.

(** [files] is [event.target.files]; [files?.[0]] is its first element, if
    any. *)
Definition handleFileInputChange (files : list File) : M (State * P) unit :=
  match files with
  | file :: _ => handleFile file
  | [] => ret tt
  end.

Definition handleDragEnter : M (State * P) unit :=
  if negb disabled then setIsDragging true else ret tt.

Definition handleDragLeave : M (State * P) unit :=
  setIsDragging false.

(** [files] is [event.dataTransfer.files]. *)
Definition handleDrop (files : list File) : M (State * P) unit :=
  setIsDragging false;;
  if disabled then ret tt
  else
    match files with
    | file :: _ => handleFile file
    | [] => ret tt
    end.

End Component.

End DocumentUploader.

(* ================================================================== *)
(** ** Facts about strings *)

Section StringFacts.

Lemma eqb_eq (a b : jsstring) : JsString.eqb a b = true <-> a = b.
Proof.
  revert b; induction a as [|x a IH]; intros [|y b]; simpl;
    try (split; congruence).
  rewrite andb_true_iff, N.eqb_eq, IH. split.
  - intros [-> ->]; reflexivity.
  - intros H; injection H; auto.
Qed.

Lemma eqb_refl (a : jsstring) : JsString.eqb a a = true.
Proof. apply eqb_eq; reflexivity. Qed.

Lemma eqb_neq (a b : jsstring) : JsString.eqb a b = false <-> a <> b.
Proof.
  rewrite <- eqb_eq. destruct (JsString.eqb a b); split; congruence.
Qed.

Lemma dropWhile_all p (a b : jsstring) :
  forallb p a = true -> dropWhile p (a ++ b) = dropWhile p b.
Proof.
  induction a as [|c a IH]; simpl; [reflexivity|].
  destruct (p c); simpl; [exact IH | discriminate].
Qed.

Lemma dropWhile_head p (s : jsstring) c r :
  dropWhile p s = c :: r -> p c = false.
Proof.
  induction s as [|x s IH]; simpl; [discriminate|].
  destruct (p x) eqn:E; [exact IH|].
  intros H; injection H as -> _; exact E.
Qed.

Lemma dropWhile_idem p (s : jsstring) :
  dropWhile p (dropWhile p s) = dropWhile p s.
Proof.
  induction s as [|x s IH]; simpl; [reflexivity|].
  destruct (p x) eqn:E; [exact IH|]. simpl; rewrite E; reflexivity.
Qed.

Lemma dropWhile_snoc p (s : jsstring) c :
  p c = false -> dropWhile p (s ++ [c]) = dropWhile p s ++ [c].
Proof.
  intros Hc. induction s as [|x s IH]; simpl.
  - rewrite Hc; reflexivity.
  - destruct (p x); [exact IH | reflexivity].
Qed.

Lemma trimEnd_cons c (s : jsstring) :
  isWhiteSpace c = false -> trimEnd (c :: s) = c :: trimEnd s.
Proof.
  intros Hc. unfold trimEnd. simpl rev.
  rewrite dropWhile_snoc by exact Hc.
  rewrite rev_app_distr. reflexivity.
Qed.

Lemma trimEnd_idem (s : jsstring) : trimEnd (trimEnd s) = trimEnd s.
Proof.
  unfold trimEnd. rewrite rev_involutive, dropWhile_idem. reflexivity.
Qed.

Lemma trimEnd_app_white (s w : jsstring) :
  forallb isWhiteSpace w = true -> trimEnd (s ++ w) = trimEnd s.
Proof.
  intros Hw. unfold trimEnd. rewrite rev_app_distr.
  rewrite dropWhile_all; [reflexivity|].
  rewrite forallb_forall in *. intros x Hx. apply Hw, in_rev, Hx.
Qed.

(** Re-trimming is a no-op. *)
Lemma trim_idem (s : jsstring) : trim (trim s) = trim s.
Proof.
  unfold trim, trimStart.
  destruct (dropWhile isWhiteSpace s) as [|c r] eqn:E; [reflexivity|].
  pose proof (dropWhile_head _ _ _ _ E) as Hc.
  rewrite (trimEnd_cons c r Hc). simpl. rewrite Hc.
  rewrite <- (trimEnd_cons c r Hc). apply trimEnd_idem.
Qed.

(** White space appended to a string does not survive [trim]. *)
Lemma trim_app_white (s w : jsstring) :
  forallb isWhiteSpace w = true -> trim (s ++ w) = trim s.
Proof.
  intros Hw. unfold trim, trimStart.
  induction s as [|c s IH]; simpl.
  - rewrite <- (app_nil_r w), dropWhile_all by exact Hw. reflexivity.
  - destruct (isWhiteSpace c); [exact IH|].
    change (c :: s ++ w) with ((c :: s) ++ w).
    apply trimEnd_app_white, Hw.
Qed.

(** Joining segments that each carry the separator behind them. *)
Lemma concat_sep_join (sep : jsstring) (segs : list jsstring) :
  segs <> [] ->
  List.concat (map (fun s : jsstring => s ++ sep) segs) = join sep segs ++ sep.
Proof.
  induction segs as [|a [|b rest] IH]; intros Hne.
  - congruence.
  - simpl. rewrite app_nil_r. reflexivity.
  - change (List.concat (map (fun s : jsstring => s ++ sep) (a :: b :: rest)))
      with ((a ++ sep) ++ List.concat (map (fun s : jsstring => s ++ sep) (b :: rest))).
    rewrite IH by discriminate.
    change (join sep (a :: b :: rest)) with (a ++ sep ++ join sep (b :: rest)).
    rewrite <- !app_assoc. reflexivity.
Qed.

Lemma noText_false (t : jsstring) : noText t = false -> trim t <> [].
Proof.
  unfold noText. destruct t as [|c t]; [discriminate|].
  destruct (trim (c :: t)); simpl; [discriminate | discriminate].
Qed.

Lemma noText_true (t : jsstring) : noText t = true <-> trim t = [].
Proof.
  unfold noText. destruct t as [|c t]; [split; reflexivity|].
  destruct (trim (c :: t)); simpl; split; congruence.
Qed.

End StringFacts.

(* ================================================================== *)
(** ** Facts about traces *)

Lemma entered_app (a b : list event) : entered (a ++ b) = entered a ++ entered b.
Proof. apply flat_map_app. Qed.

Lemma terminations_app (a b : list event) :
  terminations (a ++ b) = terminations a + terminations b.
Proof. unfold terminations. rewrite filter_app, length_app. reflexivity. Qed.

Lemma sinkCalls_app (a b : list event) :
  sinkCalls (a ++ b) = sinkCalls a ++ sinkCalls b.
Proof. apply flat_map_app. Qed.

(* ================================================================== *)
(** ** Symbolic runs: the progress bridge and the engine *)

Lemma logger_run {L} onProgress m (l : L) :
  logger onProgress m l = (Return tt, l, loggerTrace onProgress m).
Proof.
  unfold logger, loggerTrace, isEnumeratedStage, payload, enumeratedStages.
  destruct onProgress; [|reflexivity]. simpl existsb.
  destruct (JsString.eqb (status m) statusRecognizing),
           (JsString.eqb (status m) statusLoadingCore),
           (JsString.eqb (status m) statusInitializing),
           (JsString.eqb (status m) statusLoadingLanguage); reflexivity.
Qed.

Lemma loggerMultiLang_run {L} onProgress m (l : L) :
  loggerMultiLang onProgress m l
  = (Return tt, l, loggerMultiLangTrace onProgress m).
Proof. destruct onProgress; reflexivity. Qed.

(** A callback that always returns is called on every message. *)
Lemma forEach_run {L A} (f : A -> M L unit) (g : A -> list event) :
  (forall x l, f x l = (Return tt, l, g x)) ->
  forall xs l, forEach f xs l = (Return tt, l, flat_map g xs).
Proof.
  intros Hf xs. induction xs as [|x xs IH]; intros l; simpl.
  - reflexivity.
  - unfold bind. rewrite Hf, IH. reflexivity.
Qed.

Section Engine.

Variable env : Env.
Context {L : Type}.
Variable lg : LoggerMessage -> M L unit.
Variable lgTrace : LoggerMessage -> list event.
Hypothesis lg_run : forall m l, lg m l = (Return tt, l, lgTrace m).

Lemma awaitCreateWorker_run langs (l : L) :
  awaitCreateWorker env langs lg l
  = (match snd (createWorker env langs) with
     | Resolved w => Return w
     | Rejected e => Throw e
     end, l,
     CallCreateWorker langs
       :: flat_map lgTrace (fst (createWorker env langs))).
Proof.
  unfold awaitCreateWorker, bind, emit.
  rewrite (forEach_run lg lgTrace lg_run).
  destruct (snd (createWorker env langs)); simpl;
    rewrite ?app_nil_r; reflexivity.
Qed.

Lemma awaitRecognize_run w file (l : L) :
  awaitRecognize w lg file l
  = (match snd (recognize w file) with
     | Resolved d => Return d
     | Rejected e => Throw e
     end, l,
     CallRecognize :: flat_map lgTrace (fst (recognize w file))).
Proof.
  unfold awaitRecognize, bind, emit.
  rewrite (forEach_run lg lgTrace lg_run).
  destruct (snd (recognize w file)); simpl;
    rewrite ?app_nil_r; reflexivity.
Qed.

End Engine.

Ltac step_engine :=
  unfold call, tryFinally, tryCatch, bind, emit, setLocal;
  rewrite ?(awaitCreateWorker_run _ _ _ (logger_run _)),
          ?(awaitCreateWorker_run _ _ _ (loggerMultiLang_run _)).

Ltac finish_run :=
  unfold terminateTrace, getLocal;
  cbn -[lit];
  try match goal with
      | |- context [terminate ?w] => destruct (terminate w) as [[]|?]
      end;
  cbn -[lit];
  repeat (rewrite <- app_assoc; cbn -[lit]);
  rewrite ?app_nil_r;
  reflexivity.

(* ================================================================== *)
(** ** Symbolic runs: the OCR decoders *)

Lemma extractTextFromImage_run {L} env file onProgress (l : L) :
  extractTextFromImage env file onProgress l =
  let starting := createWorker env (lit "eng") in
  let opening :=
    [Enter OcrDecoder; Console (LogStartingOcr (name file));
     CallCreateWorker (lit "eng")]
    ++ flat_map (loggerTrace onProgress) (fst starting) in
  match snd starting with
  | Rejected e => (Throw (ocrFailure e), l, opening ++ [Console (ErrorOcr e)])
  | Resolved w =>
      let recognizing :=
        opening ++ [Console LogWorkerCreated; CallRecognize]
        ++ flat_map (loggerTrace onProgress) (fst (recognize w file)) in
      match snd (recognize w file) with
      | Rejected e =>
          (Throw (ocrFailure e), l,
           recognizing ++ [Console (ErrorOcr e)] ++ terminateTrace true w)
      | Resolved data =>
          let completed :=
            recognizing ++ [Console (LogOcrCompleted (confidence data))] in
          if noText (text data) then
            (Throw (ocrFailure (Error msgNoText)), l,
             completed ++ [Console (ErrorOcr (Error msgNoText))]
             ++ terminateTrace true w)
          else
            (Return (trim (text data)), l,
             completed
             ++ (if lessThan (confidence data) 60
                 then [Console (WarnLowConfidence (confidence data))]
                 else [])
             ++ terminateTrace true w)
      end
  end.
Proof.
  unfold extractTextFromImage. step_engine.
  destruct (snd (createWorker env (lit "eng"))) as [w|e].
  - rewrite (awaitRecognize_run (logger onProgress) _ (logger_run _)).
    destruct (snd (recognize w file)) as [data|e].
    + destruct (noText (text data)).
      * unfold throw, ocrFailure.
        destruct (mentionsRecognize (Error msgNoText)); finish_run.
      * destruct (lessThan (confidence data) 60); unfold ret; finish_run.
    + unfold throw, ocrFailure. destruct (mentionsRecognize e); finish_run.
  - unfold throw, ocrFailure. destruct (mentionsRecognize e); finish_run.
Qed.

Lemma extractTextFromImageMultiLang_run {L} env file languages onProgress
    (l : L) :
  extractTextFromImageMultiLang env file languages onProgress l =
  let langString := join (lit "+") languages in
  let starting := createWorker env langString in
  let opening :=
    [Enter OcrMultiLangDecoder;
     Console (LogStartingOcrLanguages (join (lit ", ") languages));
     CallCreateWorker langString]
    ++ flat_map (loggerMultiLangTrace onProgress) (fst starting) in
  match snd starting with
  | Rejected e =>
      (Throw (ocrMultiLangFailure e), l,
       opening ++ [Console (ErrorMultiLangOcr e)])
  | Resolved w =>
      let recognizing :=
        opening ++ [CallRecognize]
        ++ flat_map (loggerMultiLangTrace onProgress) (fst (recognize w file)) in
      match snd (recognize w file) with
      | Rejected e =>
          (Throw (ocrMultiLangFailure e), l,
           recognizing ++ [Console (ErrorMultiLangOcr e)]
           ++ terminateTrace false w)
      | Resolved data =>
          let completed :=
            recognizing
            ++ [Console (LogMultiLangOcrCompleted (confidence data))] in
          if noText (text data) then
            (Throw (ocrMultiLangFailure (Error msgNoTextMultiLang)), l,
             completed ++ [Console (ErrorMultiLangOcr (Error msgNoTextMultiLang))]
             ++ terminateTrace false w)
          else
            (Return (trim (text data)), l,
             completed ++ terminateTrace false w)
      end
  end.
Proof.
  unfold extractTextFromImageMultiLang. step_engine.
  destruct (snd (createWorker env (join (lit "+") languages))) as [w|e].
  - rewrite (awaitRecognize_run (loggerMultiLang onProgress) _
               (loggerMultiLang_run _)).
    destruct (snd (recognize w file)) as [data|e].
    + destruct (noText (text data));
        unfold throw, ret, ocrMultiLangFailure; finish_run.
    + unfold throw, ocrMultiLangFailure. finish_run.
  - unfold throw, ocrMultiLangFailure. finish_run.
Qed.

(* ================================================================== *)
(** ** Symbolic runs: the PDF decoder and the dispatcher *)

Lemma readPages_length pdf n :
  forall first pages,
    readPages pdf n first = Some pages -> List.length pages = n.
Proof.
  induction n as [|n IH]; intros first pages; cbn [readPages].
  - intros H; injection H as <-; reflexivity.
  - destruct (getPage pdf first) as [page|e]; [|discriminate].
    destruct (getTextContent page) as [items|e]; [|discriminate].
    destruct (readPages pdf n (S first)) as [rest|] eqn:E; [|discriminate].
    intros H; injection H as <-. cbn [List.length]. f_equal. eapply IH, E.
Qed.

Lemma pdfPageLoop_run {L} pdf n :
  forall first fullText (l : L) pages,
    readPages pdf n first = Some pages ->
    pdfPageLoop pdf n first fullText l
    = (Return (fullText
               ++ List.concat (map (fun items => pageText items ++ [10; 10]%N)
                                   pages)),
       l, pageCalls first n).
Proof.
  induction n as [|n IH]; intros first fullText l pages;
    cbn [readPages pdfPageLoop].
  - intros H; injection H as <-. unfold ret. cbn [map List.concat].
    rewrite app_nil_r. reflexivity.
  - unfold bind, emit.
    destruct (getPage pdf first) as [page|e]; [|discriminate].
    cbn [await ret].
    destruct (getTextContent page) as [items|e]; [|discriminate].
    cbn [await ret].
    destruct (readPages pdf n (S first)) as [rest|] eqn:E; [|discriminate].
    intros H; injection H as <-.
    rewrite (IH (S first) _ l rest E).
    cbn [List.concat map]. rewrite <- !app_assoc. reflexivity.
Qed.

Lemma pdfPageLoop_entered {L} pdf remaining :
  forall first fullText (l : L),
    entered (trace_of (pdfPageLoop pdf remaining first fullText l)) = [].
Proof.
  induction remaining as [|n IH]; intros first fullText l; [reflexivity|].
  cbn [pdfPageLoop]. unfold bind, emit.
  destruct (getPage pdf first) as [page|e]; [|reflexivity].
  cbn [await ret]. destruct (getTextContent page) as [items|e]; [|reflexivity].
  cbn [await ret]. specialize (IH (S first)
    (fullText ++ join (lit " ") (map str items) ++ [10; 10]%N) l).
  destruct (pdfPageLoop pdf n (S first) _ l) as [[r l'] t]. exact IH.
Qed.

Lemma extractTextFromFile_run env file onProgress :
  extractTextFromFile env file onProgress tt =
  dispatched
    (if JsString.eqb (type file) mimePdf then
       extractTextFromPDF env file tt
     else if JsString.eqb (type file) mimeDocx then
       extractTextFromDOCX env file tt
     else if startsWith (type file) mimeImagePrefix then
       extractTextFromImage env file onProgress tt
     else (Throw (Error msgUnsupported), tt, [])).
Proof.
  unfold extractTextFromFile, tryCatch, dispatched, wrapped.
  destruct (JsString.eqb (type file) mimePdf);
    [|destruct (JsString.eqb (type file) mimeDocx);
      [|destruct (startsWith (type file) mimeImagePrefix)]].
  - destruct (extractTextFromPDF env file tt) as [[[a|e] l] t]; reflexivity.
  - destruct (extractTextFromDOCX env file tt) as [[[a|e] l] t]; reflexivity.
  - destruct (extractTextFromImage env file onProgress tt) as [[[a|e] l] t];
      reflexivity.
  - reflexivity.
Qed.

(* ================================================================== *)
(** ** What the pieces of a trace contribute *)

Lemma entered_loggers onProgress ms :
  entered (flat_map (loggerTrace onProgress) ms) = [].
Proof.
  induction ms as [|m ms IH]; [reflexivity|].
  cbn [flat_map]. rewrite entered_app, IH. unfold loggerTrace.
  destruct (onProgress && isEnumeratedStage m); reflexivity.
Qed.

Lemma entered_terminate b w : entered (terminateTrace b w) = [].
Proof. unfold terminateTrace. destruct (terminate w), b; reflexivity. Qed.

Lemma terminations_loggers onProgress ms :
  terminations (flat_map (loggerTrace onProgress) ms) = 0.
Proof.
  induction ms as [|m ms IH]; [reflexivity|].
  cbn [flat_map]. rewrite terminations_app, IH. unfold loggerTrace.
  destruct (onProgress && isEnumeratedStage m); reflexivity.
Qed.

Lemma terminations_terminate b w : terminations (terminateTrace b w) = 1.
Proof. unfold terminateTrace. destruct (terminate w), b; reflexivity. Qed.

Lemma sinkCalls_loggers onProgress ms :
  sinkCalls (flat_map (loggerTrace onProgress) ms)
  = if onProgress then map payload (filter isEnumeratedStage ms) else [].
Proof.
  induction ms as [|m ms IH]; [destruct onProgress; reflexivity|].
  cbn [flat_map filter]. rewrite sinkCalls_app, IH. unfold loggerTrace.
  destruct onProgress; [|reflexivity]. cbn [andb].
  destruct (isEnumeratedStage m); reflexivity.
Qed.

Lemma sinkCalls_loggersMultiLang onProgress ms :
  sinkCalls (flat_map (loggerMultiLangTrace onProgress) ms)
  = if onProgress then map payloadMultiLang ms else [].
Proof.
  induction ms as [|m ms IH]; [destruct onProgress; reflexivity|].
  cbn [flat_map]. rewrite sinkCalls_app, IH. unfold loggerMultiLangTrace.
  destruct onProgress; reflexivity.
Qed.

Lemma sinkCalls_terminate b w : sinkCalls (terminateTrace b w) = [].
Proof. unfold terminateTrace. destruct (terminate w), b; reflexivity. Qed.

Create Rewrite HintDb trace.
#[local] Hint Rewrite entered_app entered_loggers entered_terminate
  terminations_app terminations_loggers terminations_terminate
  sinkCalls_app sinkCalls_loggers sinkCalls_loggersMultiLang
  sinkCalls_terminate app_nil_r : trace.

Lemma entered_dispatched {A L} (r : completion A * L * list event) :
  entered (trace_of (dispatched r)) = entered (trace_of r).
Proof.
  destruct r as [[[a|e] l] t]; cbn [dispatched trace_of snd]; [reflexivity|].
  rewrite entered_app. apply app_nil_r.
Qed.

Lemma entered_PDF {L} env file (l : L) :
  entered (trace_of (extractTextFromPDF env file l)) = [PdfDecoder].
Proof.
  unfold extractTextFromPDF, call, bind, emit.
  destruct (arrayBuffer env file) as [buffer|e]; [|reflexivity].
  cbn [await ret]. destruct (getDocument env buffer) as [pdf|e]; [|reflexivity].
  cbn [await ret].
  pose proof (pdfPageLoop_entered pdf (numPages pdf) 1 [] tt) as H.
  destruct (pdfPageLoop pdf (numPages pdf) 1 [] tt) as [[[fullText|e] l'] t];
    cbn [trace_of snd] in *; cbn -[entered]; rewrite ?app_nil_r;
    change (entered (Enter PdfDecoder :: CallArrayBuffer :: CallGetDocument :: t))
      with (PdfDecoder :: entered t); rewrite H; reflexivity.
Qed.

Lemma entered_DOCX {L} env file (l : L) :
  entered (trace_of (extractTextFromDOCX env file l)) = [DocxDecoder].
Proof.
  unfold extractTextFromDOCX, call, bind, emit.
  destruct (arrayBuffer env file) as [buffer|e]; [|reflexivity].
  cbn [await ret]. destruct (extractRawText env buffer); reflexivity.
Qed.

Lemma entered_Image {L} env file onProgress (l : L) :
  entered (trace_of (extractTextFromImage env file onProgress l))
  = [OcrDecoder].
Proof.
  rewrite extractTextFromImage_run. cbv zeta.
  destruct (snd (createWorker env (lit "eng"))) as [w|e].
  - destruct (snd (recognize w file)) as [data|e];
      [destruct (noText (text data));
       [|destruct (lessThan (confidence data) 60)]|];
      cbn [trace_of snd]; autorewrite with trace; reflexivity.
  - cbn [trace_of snd]; autorewrite with trace; reflexivity.
Qed.

Lemma image_not_pdf_docx (fileType : jsstring) :
  startsWith fileType mimeImagePrefix = true ->
  JsString.eqb fileType mimePdf = false
  /\ JsString.eqb fileType mimeDocx = false.
Proof.
  intros H. split.
  - destruct (JsString.eqb fileType mimePdf) eqn:E; [|reflexivity].
    apply eqb_eq in E. subst. discriminate H.
  - destruct (JsString.eqb fileType mimeDocx) eqn:E; [|reflexivity].
    apply eqb_eq in E. subst. discriminate H.
Qed.

Lemma legacy_extractTextFromFile_run env readAsDataURL file :
  Legacy.extractTextFromFile env readAsDataURL file tt =
  dispatched
    (if JsString.eqb (type file) mimePdf then
       extractTextFromPDF env file tt
     else if JsString.eqb (type file) mimeDocx then
       extractTextFromDOCX env file tt
     else if startsWith (type file) mimeImagePrefix then
       Legacy.extractTextFromImage readAsDataURL file tt
     else (Throw (Error msgUnsupported), tt, [])).
Proof.
  unfold Legacy.extractTextFromFile, tryCatch, dispatched, wrapped.
  destruct (JsString.eqb (type file) mimePdf);
    [|destruct (JsString.eqb (type file) mimeDocx);
      [|destruct (startsWith (type file) mimeImagePrefix)]].
  - destruct (extractTextFromPDF env file tt) as [[[a|e] l] t]; reflexivity.
  - destruct (extractTextFromDOCX env file tt) as [[[a|e] l] t]; reflexivity.
  - destruct (Legacy.extractTextFromImage readAsDataURL file tt)
      as [[[a|e] l] t]; reflexivity.
  - reflexivity.
Qed.

Lemma legacy_entered_Image {L} readAsDataURL file (l : L) :
  entered (trace_of (Legacy.extractTextFromImage readAsDataURL file l))
  = [PlaceholderOcrDecoder].
Proof.
  unfold Legacy.extractTextFromImage, call, bind, emit.
  destruct (readAsDataURL file); reflexivity.
Qed.

(* ================================================================== *)
(** ** The claims *)

(** C1. Type routing of [extractTextFromFile], in both copies of the
    module ([r] is a call of the one with OCR, [r'] a call of the one with
    the placeholder).  A file whose type is exactly "application/pdf" goes
    to the PDF decoder: the run is that decoder's run inside the
    dispatcher's try/catch and no other decoder is entered; likewise the
    exact DOCX type goes to the DOCX decoder alone and a type starting with
    "image/" to the image decoder alone; for every other type the call
    throws the "Unsupported file type" error (re-thrown by the catch block
    with its message kept) and no decoder is entered: the only effect is
    the console.error of the catch block. *)
Theorem C1_dispatcher_routes_by_media_type env file onProgress readAsDataURL :
  let r := extractTextFromFile env file onProgress tt in
  let r' := Legacy.extractTextFromFile env readAsDataURL file tt in
  (type file = mimePdf ->
     (r = dispatched (extractTextFromPDF env file tt)
      /\ entered (trace_of r) = [PdfDecoder])
     /\ (r' = dispatched (extractTextFromPDF env file tt)
         /\ entered (trace_of r') = [PdfDecoder]))
  /\ (type file = mimeDocx ->
     (r = dispatched (extractTextFromDOCX env file tt)
      /\ entered (trace_of r) = [DocxDecoder])
     /\ (r' = dispatched (extractTextFromDOCX env file tt)
         /\ entered (trace_of r') = [DocxDecoder]))
  /\ (startsWith (type file) mimeImagePrefix = true ->
     (r = dispatched (extractTextFromImage env file onProgress tt)
      /\ entered (trace_of r) = [OcrDecoder])
     /\ (r' = dispatched (Legacy.extractTextFromImage readAsDataURL file tt)
         /\ entered (trace_of r') = [PlaceholderOcrDecoder]))
  /\ (type file <> mimePdf -> type file <> mimeDocx ->
      startsWith (type file) mimeImagePrefix = false ->
     (result_of r = Throw (Error (msgExtractFailedPrefix ++ msgUnsupported))
      /\ trace_of r = [Console (ErrorExtracting (Error msgUnsupported))]
      /\ entered (trace_of r) = [])
     /\ (result_of r' = Throw (Error (msgExtractFailedPrefix ++ msgUnsupported))
         /\ trace_of r' = [Console (ErrorExtracting (Error msgUnsupported))]
         /\ entered (trace_of r') = [])).
Proof.
  intros r r'. subst r r'.
  rewrite extractTextFromFile_run, legacy_extractTextFromFile_run.
  split; [|split; [|split]].
  - intros Ht. rewrite Ht.
    change (JsString.eqb mimePdf mimePdf) with true. cbv iota.
    rewrite entered_dispatched, entered_PDF. repeat split.
  - intros Ht. rewrite Ht.
    change (JsString.eqb mimeDocx mimePdf) with false.
    change (JsString.eqb mimeDocx mimeDocx) with true. cbv iota.
    rewrite entered_dispatched, entered_DOCX. repeat split.
  - intros Ht. destruct (image_not_pdf_docx _ Ht) as [-> ->]. rewrite Ht.
    rewrite !entered_dispatched, entered_Image, legacy_entered_Image.
    repeat split.
  - intros Hp Hd Hi. apply eqb_neq in Hp, Hd. rewrite Hp, Hd, Hi.
    repeat split.
Qed.

(** C1 at the four files of the test plan. *)
Lemma C1_dispatcher_routes_witness :
  entered (trace_of (extractTextFromFile Scenario.scenarioA Scenario.pdfFile
                       false tt)) = [PdfDecoder]
  /\ entered (trace_of (extractTextFromFile (Scenario.docxEnv (lit "Hi"))
                          Scenario.docxFile false tt)) = [DocxDecoder]
  /\ entered (trace_of (extractTextFromFile Scenario.scenarioC Scenario.pngFile
                          false tt)) = [OcrDecoder]
  /\ result_of (extractTextFromFile Scenario.noLibraries Scenario.txtFile
                  false tt)
     = Throw (Error (msgExtractFailedPrefix ++ msgUnsupported)).
Proof.
  split; [|split; [|split]].
  - apply (C1_dispatcher_routes_by_media_type
             Scenario.scenarioA Scenario.pdfFile false (fun _ => true)).
    reflexivity.
  - apply (C1_dispatcher_routes_by_media_type
             (Scenario.docxEnv (lit "Hi")) Scenario.docxFile false
             (fun _ => true)).
    reflexivity.
  - apply (C1_dispatcher_routes_by_media_type
             Scenario.scenarioC Scenario.pngFile false (fun _ => true)).
    reflexivity.
  - apply (C1_dispatcher_routes_by_media_type
             Scenario.noLibraries Scenario.txtFile false (fun _ => true));
      [discriminate | discriminate | reflexivity].
Defined.

Lemma extractTextFromPDF_run {L} env file buffer pdf pages (l : L) :
  arrayBuffer env file = Resolved buffer ->
  getDocument env buffer = Resolved pdf ->
  readPages pdf (numPages pdf) 1 = Some pages ->
  extractTextFromPDF env file l
  = (Return (decodePdfSpec (map (map str) pages)), l,
     [Enter PdfDecoder; CallArrayBuffer; CallGetDocument]
     ++ pageCalls 1 (numPages pdf)).
Proof.
  intros Hb Hd Hp. unfold extractTextFromPDF, call, bind, emit.
  rewrite Hb. cbn [await ret]. rewrite Hd. cbn [await ret].
  rewrite (pdfPageLoop_run pdf (numPages pdf) 1 [] tt pages Hp).
  unfold ret, decodePdfSpec. cbn [app]. rewrite app_nil_r.
  do 2 f_equal. f_equal. rewrite map_map.
  change (map (fun x => join (lit " ") (map str x)) pages)
    with (map pageText pages).
  rewrite <- (map_map pageText (fun s => s ++ [10; 10]%N) pages).
  destruct pages as [|p ps]; [reflexivity|].
  rewrite (concat_sep_join [10; 10]%N (map pageText (p :: ps)))
    by discriminate.
  apply trim_app_white. reflexivity.
Qed.

(** C2. When the buffer of the file can be read, pdf.js loads it as a
    document and every page 1..N can be read, [extractTextFromPDF] returns
    the fragments of each page joined by single spaces, the pages in
    ascending order joined by one blank line (two newline characters), the
    whole trimmed; the pages are read one after the other, in ascending
    order.  (Scenario A, pages ["Hello","World"] and ["Foo"], is the
    instance [C2_pdf_pages_scenario_A].) *)
Theorem C2_pdf_pages_joined_by_blank_line
    env file buffer pdf (pages : list (list TextItem)) :
  arrayBuffer env file = Resolved buffer ->
  getDocument env buffer = Resolved pdf ->
  readPages pdf (numPages pdf) 1 = Some pages ->
  result_of (extractTextFromPDF env file tt)
  = Return (trim (join [10; 10]%N
                    (map (fun items => join (lit " ") (map str items)) pages)))
  /\ result_of (extractTextFromPDF env file tt)
     = Return (decodePdfSpec (map (map str) pages))
  /\ trace_of (extractTextFromPDF env file tt)
     = [Enter PdfDecoder; CallArrayBuffer; CallGetDocument]
       ++ flat_map (fun k => [CallGetPage k; CallGetTextContent k])
            (seq 1 (List.length pages)).
Proof.
  intros Hb Hd Hp.
  rewrite (extractTextFromPDF_run env file buffer pdf pages tt Hb Hd Hp).
  rewrite (readPages_length _ _ _ _ Hp).
  unfold decodePdfSpec. rewrite map_map. repeat split.
Qed.

(** Scenario A of the test plan: a 2-page PDF with fragments "Hello",
    "World" on page 1 and "Foo" on page 2 gives "Hello World\n\nFoo". *)
Lemma C2_pdf_pages_scenario_A :
  result_of (extractTextFromPDF Scenario.scenarioA Scenario.pdfFile tt)
  = Return (lit "Hello World" ++ [10; 10]%N ++ lit "Foo").
Proof.
  exact (proj1 (C2_pdf_pages_joined_by_blank_line
                  Scenario.scenarioA Scenario.pdfFile
                  (bytes Scenario.pdfFile)
                  (Scenario.pdfOfPages [[lit "Hello"; lit "World"]; [lit "Foo"]])
                  [[ {| str := lit "Hello" |}; {| str := lit "World" |} ];
                   [ {| str := lit "Foo" |} ]]
                  eq_refl eq_refl eq_refl)).
Defined.

(** The validation error of [extractTextFromImage] does not leave the
    function: its message contains "recognize" (in "recognized"), so the
    catch block of the same function replaces it. *)
Lemma noText_rejection_remapped {L} env file onProgress w data (l : L) :
  snd (createWorker env (lit "eng")) = Resolved w ->
  snd (recognize w file) = Resolved data ->
  noText (text data) = true ->
  result_of (extractTextFromImage env file onProgress l)
  = Throw (Error msgRecognitionFailed).
Proof.
  intros Hw Hd Hn. rewrite extractTextFromImage_run. cbv zeta.
  rewrite Hw, Hd, Hn. reflexivity.
Qed.

(** C3 (the code departs from the claim). In scenario C of the test plan
    (the engine resolves with text "" and confidence 95) the call rejects,
    but not with the no-text error the validation step throws: that error's
    message mentions "recognize", so the catch block of
    [extractTextFromImage] replaces it by the recognition-failure message,
    which carries no hint about a blurry, low-quality or textless image.
    The multi-language variant keeps its validation message. *)
Theorem C3_no_text_error_replaced_by_recognition_failure :
  result_of (extractTextFromImage Scenario.scenarioC Scenario.pngFile false tt)
  = Throw (Error msgRecognitionFailed)
  /\ result_of (extractTextFromImage Scenario.scenarioC Scenario.pngFile
                  false tt)
     <> Throw (Error msgNoText)
  /\ includes msgRecognitionFailed (lit "blurry") = false
  /\ includes msgNoText (lit "recognize") = true
  /\ result_of (extractTextFromImageMultiLang Scenario.scenarioC
                  Scenario.pngFile [lit "eng"] false tt)
     = Throw (Error (msgOcrFailedPrefix ++ msgNoTextMultiLang)).
Proof.
  assert (H : result_of (extractTextFromImage Scenario.scenarioC
                           Scenario.pngFile false tt)
              = Throw (Error msgRecognitionFailed)).
  { apply (noText_rejection_remapped Scenario.scenarioC Scenario.pngFile false
             {| recognize := fun _ =>
                  ([], Resolved {| text := []; confidence := 95 |});
                terminate := Resolved tt |}
             {| text := []; confidence := 95 |}); reflexivity. }
  split; [exact H|]. split; [rewrite H; discriminate|].
  repeat split; vm_compute; reflexivity.
Qed.

(** C4 fails as stated: when [createWorker] rejects there is no worker,
    the [finally] block skips the termination and the call rejects with
    [worker.terminate] never called. *)
Lemma C4_terminate_not_called_when_worker_creation_fails :
  result_of (extractTextFromImage Scenario.noLibraries Scenario.pngFile
               false tt)
  = Throw (Error (msgOcrFailedPrefix ++ lit "not available"))
  /\ terminations (trace_of (extractTextFromImage Scenario.noLibraries
                               Scenario.pngFile false tt)) = 0
  /\ terminations (trace_of (extractTextFromImage Scenario.noLibraries
                               Scenario.pngFile false tt)) <> 1.
Proof. repeat split. vm_compute. discriminate. Qed.

(** C4, amended. [worker.terminate] is called exactly once in every call
    of [extractTextFromImage] in which [createWorker] resolved, whether the
    call then resolves or rejects (and whether the termination itself
    resolves or rejects); it is not called when [createWorker] rejected. *)
Theorem C4_terminate_once_per_created_worker env file onProgress :
  terminations (trace_of (extractTextFromImage env file onProgress tt))
  = match snd (createWorker env (lit "eng")) with
    | Resolved _ => 1
    | Rejected _ => 0
    end.
Proof.
  rewrite extractTextFromImage_run. cbv zeta.
  destruct (snd (createWorker env (lit "eng"))) as [w|e].
  - destruct (snd (recognize w file)) as [data|e];
      [destruct (noText (text data));
       [|destruct (lessThan (confidence data) 60)]|];
      cbn [trace_of snd]; autorewrite with trace; reflexivity.
  - cbn [trace_of snd]; autorewrite with trace; reflexivity.
Qed.

(** A failure of an OCR decoder is always an [Error] with a message. *)
Lemma extractTextFromImage_throws_Error {L} env file onProgress e (l : L) :
  result_of (extractTextFromImage env file onProgress l) = Throw e ->
  exists m, message e = Some m.
Proof.
  rewrite extractTextFromImage_run. cbv zeta. unfold ocrFailure.
  destruct (snd (createWorker env (lit "eng"))) as [w|e0].
  - destruct (snd (recognize w file)) as [data|e0].
    + destruct (noText (text data)).
      * destruct (mentionsRecognize (Error msgNoText));
          intros H; injection H as <-; eexists; reflexivity.
      * discriminate.
    + destruct (mentionsRecognize e0);
        intros H; injection H as <-; eexists; reflexivity.
  - destruct (mentionsRecognize e0);
      intros H; injection H as <-; eexists; reflexivity.
Qed.

(** C5. Whatever a decoder throws, the catch block of
    [extractTextFromFile] logs it and throws a new [Error] in its place,
    whose message is "Failed to extract text: " followed by the message of
    the decoder's failure (for a thrown value without a message property
    the template prints "undefined"); the OCR decoder always fails with a
    message.  Nothing else happens between the decoder's failure and the
    re-throw. *)
Theorem C5_decoder_failures_rewrapped env file onProgress e t :
  (type file = mimePdf ->
   extractTextFromPDF env file tt = (Throw e, tt, t) ->
   extractTextFromFile env file onProgress tt
   = (Throw (Error (msgExtractFailedPrefix ++ template (message e))), tt,
      t ++ [Console (ErrorExtracting e)])
   /\ forall m, message e = Some m ->
        result_of (extractTextFromFile env file onProgress tt)
        = Throw (Error (msgExtractFailedPrefix ++ m)))
  /\ (type file = mimeDocx ->
   extractTextFromDOCX env file tt = (Throw e, tt, t) ->
   extractTextFromFile env file onProgress tt
   = (Throw (Error (msgExtractFailedPrefix ++ template (message e))), tt,
      t ++ [Console (ErrorExtracting e)])
   /\ forall m, message e = Some m ->
        result_of (extractTextFromFile env file onProgress tt)
        = Throw (Error (msgExtractFailedPrefix ++ m)))
  /\ (startsWith (type file) mimeImagePrefix = true ->
   extractTextFromImage env file onProgress tt = (Throw e, tt, t) ->
   extractTextFromFile env file onProgress tt
   = (Throw (Error (msgExtractFailedPrefix ++ template (message e))), tt,
      t ++ [Console (ErrorExtracting e)])
   /\ exists m, message e = Some m
        /\ result_of (extractTextFromFile env file onProgress tt)
           = Throw (Error (msgExtractFailedPrefix ++ m))).
Proof.
  rewrite extractTextFromFile_run.
  split; [|split].
  - intros Ht Hd. rewrite Ht.
    change (JsString.eqb mimePdf mimePdf) with true. cbv iota. rewrite Hd.
    split; [reflexivity|]. intros m Hm.
    cbn [dispatched result_of fst]. unfold wrapped. rewrite Hm. reflexivity.
  - intros Ht Hd. rewrite Ht.
    change (JsString.eqb mimeDocx mimePdf) with false.
    change (JsString.eqb mimeDocx mimeDocx) with true. cbv iota. rewrite Hd.
    split; [reflexivity|]. intros m Hm.
    cbn [dispatched result_of fst]. unfold wrapped. rewrite Hm. reflexivity.
  - intros Ht Hd. destruct (image_not_pdf_docx _ Ht) as [-> ->]. rewrite Ht.
    destruct (extractTextFromImage_throws_Error env file onProgress e tt)
      as [m Hm]; [rewrite Hd; reflexivity|].
    rewrite Hd. split; [reflexivity|]. exists m. split; [exact Hm|].
    cbn [dispatched result_of fst]. unfold wrapped. rewrite Hm. reflexivity.
Qed.

(** C5 at three failing decoders: pdf.js and mammoth cannot read the
    buffer, tesseract.js cannot start a worker. *)
Lemma C5_decoder_failures_witness :
  result_of (extractTextFromFile Scenario.noLibraries Scenario.pdfFile
               false tt)
  = Throw (Error (msgExtractFailedPrefix ++ lit "not available"))
  /\ result_of (extractTextFromFile Scenario.noLibraries Scenario.docxFile
                  false tt)
     = Throw (Error (msgExtractFailedPrefix ++ lit "not available"))
  /\ result_of (extractTextFromFile Scenario.noLibraries Scenario.pngFile
                  false tt)
     = Throw (Error (msgExtractFailedPrefix
                       ++ msgOcrFailedPrefix ++ lit "not available")).
Proof.
  split; [|split].
  - apply (proj2 (proj1 (C5_decoder_failures_rewrapped
                    Scenario.noLibraries Scenario.pdfFile false
                    Scenario.unavailable
                    [Enter PdfDecoder; CallArrayBuffer])
             eq_refl eq_refl) (lit "not available") eq_refl).
  - apply (proj2 (proj1 (proj2 (C5_decoder_failures_rewrapped
                    Scenario.noLibraries Scenario.docxFile false
                    Scenario.unavailable
                    [Enter DocxDecoder; CallArrayBuffer]))
             eq_refl eq_refl) (lit "not available") eq_refl).
  - destruct (proj2 (proj2 (C5_decoder_failures_rewrapped
                    Scenario.noLibraries Scenario.pngFile false
                    (Error (msgOcrFailedPrefix ++ lit "not available"))
                    [Enter OcrDecoder;
                     Console (LogStartingOcr (lit "a.png"));
                     CallCreateWorker (lit "eng");
                     Console (ErrorOcr Scenario.unavailable)]))
             eq_refl eq_refl) as [H _].
    rewrite H. reflexivity.
Defined.

(** What a returning call of [extractTextFromImage] returns. *)
Lemma extractTextFromImage_returns {L} env file onProgress out (l : L) :
  result_of (extractTextFromImage env file onProgress l) = Return out ->
  exists w data,
    snd (createWorker env (lit "eng")) = Resolved w
    /\ snd (recognize w file) = Resolved data
    /\ noText (text data) = false
    /\ out = trim (text data).
Proof.
  rewrite extractTextFromImage_run. cbv zeta.
  destruct (snd (createWorker env (lit "eng"))) as [w|e]; [|discriminate].
  destruct (snd (recognize w file)) as [data|e] eqn:Ed; [|discriminate].
  destruct (noText (text data)) eqn:En; [discriminate|].
  intros H; injection H as <-. exists w, data.
  split; [reflexivity|]. split; [exact Ed|]. split; [exact En|reflexivity].
Qed.

(** What a returning call of [extractTextFromPDF] returns. *)
Lemma extractTextFromPDF_returns {L} env file out (l : L) :
  result_of (extractTextFromPDF env file l) = Return out ->
  exists fullText, out = trim fullText.
Proof.
  unfold extractTextFromPDF, call, bind, emit.
  destruct (arrayBuffer env file) as [buffer|e]; [|discriminate].
  cbn [await ret]. destruct (getDocument env buffer) as [pdf|e]; [|discriminate].
  cbn [await ret].
  destruct (pdfPageLoop pdf (numPages pdf) 1 [] tt) as [[[fullText|e] l'] t];
    [|discriminate].
  cbn. intros H; injection H as <-. exists fullText. reflexivity.
Qed.

Lemma result_of_dispatched_returns {A L} (r : completion A * L * list event) a :
  result_of (dispatched r) = Return a -> result_of r = Return a.
Proof. destruct r as [[[a'|e] l] t]; [exact (fun H => H) | discriminate]. Qed.

(** C6 fails as stated: a PDF without pages makes the dispatcher resolve
    with the empty string, whose length after trimming is 0; so does a
    DOCX whose raw text is empty. *)
Lemma C6_pdf_and_docx_may_resolve_with_empty_text :
  result_of (extractTextFromFile (Scenario.pdfEnv []) Scenario.pdfFile
               false tt) = Return []
  /\ result_of (extractTextFromFile (Scenario.docxEnv []) Scenario.docxFile
                  false tt) = Return []
  /\ ~ (0 < List.length (trim [])).
Proof. split; [reflexivity|]. split; [reflexivity|]. cbn. lia. Qed.

(** C6, amended. For a file whose type starts with "image/", a call of
    [extractTextFromFile] that resolves returns a text of length > 0 after
    trimming, which is already trimmed.  (PDF and DOCX results are handed
    over without this validation.) *)
Theorem C6_image_results_are_non_empty env file onProgress out :
  startsWith (type file) mimeImagePrefix = true ->
  result_of (extractTextFromFile env file onProgress tt) = Return out ->
  0 < List.length (trim out) /\ trim out = out.
Proof.
  intros Ht. rewrite extractTextFromFile_run.
  destruct (image_not_pdf_docx _ Ht) as [-> ->]. rewrite Ht.
  intros H. apply result_of_dispatched_returns in H.
  apply extractTextFromImage_returns in H.
  destruct H as (w & data & _ & _ & Hn & ->).
  rewrite trim_idem. split; [|reflexivity].
  apply noText_false in Hn. destruct (trim (text data)); [congruence|].
  cbn. lia.
Qed.

(** C6 (amended) at scenario B of the test plan. *)
Lemma C6_image_results_witness :
  0 < List.length (trim (lit "Invoice #123"))
  /\ trim (lit "Invoice #123") = lit "Invoice #123".
Proof.
  apply (C6_image_results_are_non_empty
           Scenario.scenarioB Scenario.pngFile true (lit "Invoice #123"));
    reflexivity.
Defined.

(** [lessThan] is the order of the rationals. *)
Lemma lessThan_spec (c bound : Q) : lessThan c bound = true <-> (c < bound)%Q.
Proof.
  unfold lessThan. rewrite negb_true_iff. split.
  - intros H. apply Qnot_le_lt. intros Hle.
    apply Qle_bool_iff in Hle. congruence.
  - intros H. destruct (Qle_bool bound c) eqn:E; [|reflexivity].
    apply Qle_bool_iff in E. exfalso. exact (Qlt_not_le _ _ H E).
Qed.

(** C7 fails as stated: the text " " is not empty, but with confidence 42
    the call rejects, because the text is empty after trimming. *)
Lemma C7_blank_text_rejected_at_low_confidence :
  let data := {| text := [32%N]; confidence := 42 |} in
  let env := Scenario.ocrEnv [] [] (Resolved data) (Resolved tt) in
  text data <> []
  /\ (confidence data < 60)%Q
  /\ result_of (extractTextFromImage env Scenario.pngFile false tt)
     = Throw (Error msgRecognitionFailed)
  /\ forall out,
       result_of (extractTextFromImage env Scenario.pngFile false tt)
       <> Return out.
Proof.
  cbv zeta. split; [discriminate|]. split; [reflexivity|].
  split; [reflexivity|]. intros out. discriminate.
Qed.

(** C7, amended. When the worker starts and recognition resolves with a
    text that is not empty after trimming and a confidence below 60,
    [extractTextFromImage] returns the trimmed text.  The low confidence
    adds one console.warn after the completion log and changes nothing
    else: the rest of the trace and the result are those of the same run
    without the warning. *)
Theorem C7_low_confidence_only_warns env file onProgress w data :
  snd (createWorker env (lit "eng")) = Resolved w ->
  snd (recognize w file) = Resolved data ->
  trim (text data) <> [] ->
  (confidence data < 60)%Q ->
  extractTextFromImage env file onProgress tt
  = (Return (trim (text data)), tt,
     [Enter OcrDecoder; Console (LogStartingOcr (name file));
      CallCreateWorker (lit "eng")]
     ++ flat_map (loggerTrace onProgress) (fst (createWorker env (lit "eng")))
     ++ [Console LogWorkerCreated; CallRecognize]
     ++ flat_map (loggerTrace onProgress) (fst (recognize w file))
     ++ [Console (LogOcrCompleted (confidence data));
         Console (WarnLowConfidence (confidence data))]
     ++ terminateTrace true w).
Proof.
  intros Hw Hd Ht Hc. rewrite extractTextFromImage_run. cbv zeta.
  rewrite Hw, Hd.
  destruct (noText (text data)) eqn:En;
    [apply noText_true in En; contradiction|].
  apply lessThan_spec in Hc. rewrite Hc.
  f_equal. rewrite <- !app_assoc. reflexivity.
Qed.

(** C7 (amended) at the outcome of the test plan: text "hello",
    confidence 42. *)
Lemma C7_low_confidence_witness :
  result_of
    (extractTextFromImage
       (Scenario.ocrEnv [] []
          (Resolved {| text := lit "hello"; confidence := 42 |}) (Resolved tt))
       Scenario.pngFile false tt)
  = Return (lit "hello").
Proof.
  rewrite (C7_low_confidence_only_warns
             (Scenario.ocrEnv [] []
                (Resolved {| text := lit "hello"; confidence := 42 |})
                (Resolved tt))
             Scenario.pngFile false
             {| recognize := fun _ =>
                  ([], Resolved {| text := lit "hello"; confidence := 42 |});
                terminate := Resolved tt |}
             {| text := lit "hello"; confidence := 42 |}
             eq_refl eq_refl).
  - reflexivity.
  - discriminate.
  - reflexivity.
Defined.

(** C8. With a progress callback, [extractTextFromImage] calls it, in
    order, for exactly those delivered messages whose status is one of the
    four enumerated stages ("loading tesseract core", "initializing
    tesseract", "loading language traineddata", "recognizing text"),
    passing the status and the progress, and for no other message;
    [extractTextFromImageMultiLang] calls it for every delivered message,
    whatever its status.  Without a callback neither calls anything. *)
Theorem C8_progress_forwarding env file languages onProgress :
  sinkCalls (trace_of (extractTextFromImage env file onProgress tt))
  = (if onProgress
     then map payload
            (filter (fun m => existsb (JsString.eqb (status m))
                                [statusLoadingCore; statusInitializing;
                                 statusLoadingLanguage; statusRecognizing])
                    (delivered env (lit "eng") file))
     else [])
  /\ sinkCalls (trace_of (extractTextFromImageMultiLang env file languages
                            onProgress tt))
     = (if onProgress
        then map payloadMultiLang
               (delivered env (join (lit "+") languages) file)
        else []).
Proof.
  change (fun m => existsb (JsString.eqb (status m))
                     [statusLoadingCore; statusInitializing;
                      statusLoadingLanguage; statusRecognizing])
    with isEnumeratedStage.
  unfold delivered. split.
  - rewrite extractTextFromImage_run. cbv zeta.
    destruct (snd (createWorker env (lit "eng"))) as [w|e].
    + destruct (snd (recognize w file)) as [data|e];
        [destruct (noText (text data));
         [|destruct (lessThan (confidence data) 60)]|];
        cbn [trace_of snd]; autorewrite with trace;
        rewrite filter_app, map_app; destruct onProgress; reflexivity.
    + cbn [trace_of snd]; autorewrite with trace.
      destruct onProgress; reflexivity.
  - rewrite extractTextFromImageMultiLang_run. cbv zeta.
    destruct (snd (createWorker env (join (lit "+") languages))) as [w|e].
    + destruct (snd (recognize w file)) as [data|e];
        [destruct (noText (text data))|];
        cbn [trace_of snd]; autorewrite with trace;
        rewrite map_app; destruct onProgress; reflexivity.
    + cbn [trace_of snd]; autorewrite with trace.
      destruct onProgress; reflexivity.
Qed.

(** A message with a status outside the four stages: the single-language
    decoder keeps it from the callback, the multi-language one passes it. *)
Example unknown_stage_filtered_only_by_single_language :
  let other := {| status := lit "loaded language traineddata";
                  progress := Num 1 |} in
  let env := Scenario.ocrEnv [other] []
               (Resolved {| text := lit "x"; confidence := 90 |})
               (Resolved tt) in
  sinkCalls (trace_of (extractTextFromImage env Scenario.pngFile true tt)) = []
  /\ sinkCalls (trace_of (extractTextFromImageMultiLang env Scenario.pngFile
                            [lit "eng"] true tt)) = [other].
Proof. split; reflexivity. Qed.

(** C9. A text returned by [extractTextFromImage] or by
    [extractTextFromPDF] is its own trim: it has no leading or trailing
    white space. *)
Theorem C9_returned_text_is_trimmed env file onProgress out :
  (result_of (extractTextFromImage env file onProgress tt) = Return out ->
   trim out = out)
  /\ (result_of (extractTextFromPDF env file tt) = Return out ->
      trim out = out).
Proof.
  split; intros H.
  - apply extractTextFromImage_returns in H.
    destruct H as (w & data & _ & _ & _ & ->). apply trim_idem.
  - apply extractTextFromPDF_returns in H.
    destruct H as (fullText & ->). apply trim_idem.
Qed.

(** C9 at scenario B (image) and scenario A (PDF) of the test plan. *)
Lemma C9_returned_text_witness :
  trim (lit "Invoice #123") = lit "Invoice #123"
  /\ trim (lit "Hello World" ++ [10; 10]%N ++ lit "Foo")
     = lit "Hello World" ++ [10; 10]%N ++ lit "Foo".
Proof.
  split.
  - apply (proj1 (C9_returned_text_is_trimmed
                    Scenario.scenarioB Scenario.pngFile true
                    (lit "Invoice #123"))).
    reflexivity.
  - apply (proj2 (C9_returned_text_is_trimmed
                    Scenario.scenarioA Scenario.pdfFile true
                    (lit "Hello World" ++ [10; 10]%N ++ lit "Foo"))).
    reflexivity.
Defined.

Lemma trim_white (s : jsstring) :
  forallb isWhiteSpace s = true -> trim s = [].
Proof. intros H. apply (trim_app_white [] s H). Qed.

Lemma join_empty_pages_white (pages : list (list TextItem)) :
  Forall (fun items => items = []) pages ->
  forallb isWhiteSpace (join [10; 10]%N (map pageText pages)) = true.
Proof.
  induction pages as [|p [|q rest] IH]; intros H.
  - reflexivity.
  - inversion H; subst. reflexivity.
  - inversion H as [|? ? Hp Hrest]; subst.
    change (join [10; 10]%N (map pageText ([] :: q :: rest)))
      with ([10; 10]%N ++ join [10; 10]%N (map pageText (q :: rest))).
    rewrite forallb_app, (IH Hrest). reflexivity.
Qed.

(** C10. When the buffer of a file of type "application/pdf" can be read
    and pdf.js loads it as a document whose pages can all be read and hold
    no text items (in particular a document without pages),
    [extractTextFromFile] resolves with the empty string; and for a file of
    the DOCX type it resolves with the raw text mammoth extracted, as it
    is, the empty string included: only the OCR decoder validates that the
    text is not empty. *)
Theorem C10_empty_pdf_and_docx_resolve env file onProgress buffer :
  arrayBuffer env file = Resolved buffer ->
  (forall pdf pages,
     type file = mimePdf ->
     getDocument env buffer = Resolved pdf ->
     readPages pdf (numPages pdf) 1 = Some pages ->
     Forall (fun items => items = []) pages ->
     result_of (extractTextFromFile env file onProgress tt) = Return [])
  /\ (forall value,
        type file = mimeDocx ->
        extractRawText env buffer = Resolved value ->
        result_of (extractTextFromFile env file onProgress tt) = Return value).
Proof.
  intros Hb. rewrite extractTextFromFile_run. split.
  - intros pdf pages Ht Hd Hp Hempty. rewrite Ht.
    change (JsString.eqb mimePdf mimePdf) with true. cbv iota.
    rewrite (extractTextFromPDF_run env file buffer pdf pages tt Hb Hd Hp).
    cbn [dispatched result_of fst]. f_equal.
    unfold decodePdfSpec. rewrite map_map. apply trim_white.
    exact (join_empty_pages_white pages Hempty).
  - intros value Ht Hv. rewrite Ht.
    change (JsString.eqb mimeDocx mimePdf) with false.
    change (JsString.eqb mimeDocx mimeDocx) with true. cbv iota.
    unfold extractTextFromDOCX, call, bind, emit.
    rewrite Hb. cbn [await ret]. rewrite Hv. reflexivity.
Qed.

(** C10 at a PDF without pages, a PDF with two empty pages and an empty
    DOCX. *)
Lemma C10_empty_pdf_and_docx_witness :
  result_of (extractTextFromFile (Scenario.pdfEnv []) Scenario.pdfFile
               false tt) = Return []
  /\ result_of (extractTextFromFile (Scenario.pdfEnv [[]; []]) Scenario.pdfFile
                  false tt) = Return []
  /\ result_of (extractTextFromFile (Scenario.docxEnv []) Scenario.docxFile
                  false tt) = Return [].
Proof.
  split; [|split].
  - apply (proj1 (C10_empty_pdf_and_docx_resolve
                    (Scenario.pdfEnv []) Scenario.pdfFile false
                    (bytes Scenario.pdfFile) eq_refl)
             (Scenario.pdfOfPages []) [] eq_refl eq_refl eq_refl).
    constructor.
  - apply (proj1 (C10_empty_pdf_and_docx_resolve
                    (Scenario.pdfEnv [[]; []]) Scenario.pdfFile false
                    (bytes Scenario.pdfFile) eq_refl)
             (Scenario.pdfOfPages [[]; []]) [[]; []] eq_refl eq_refl eq_refl).
    repeat constructor.
  - apply (proj2 (C10_empty_pdf_and_docx_resolve
                    (Scenario.docxEnv []) Scenario.docxFile false
                    (bytes Scenario.docxFile) eq_refl)
             [] eq_refl eq_refl).
Defined.

(* ================================================================== *)
(** ** Further properties of utils/fileParser.js *)

Lemma pdfPageLoop_fails {L} pdf k :
  forall n first fullText (l : L) pages e,
    k < n ->
    readPages pdf k first = Some pages ->
    fst (readPage pdf (first + k)) = Rejected e ->
    pdfPageLoop pdf n first fullText l
    = (Throw e, l, pageCalls first k ++ snd (readPage pdf (first + k))).
Proof.
  induction k as [|k IH]; intros n first fullText l pages e Hlt Hread Hfail.
  - destruct n as [|n]; [lia|]. rewrite Nat.add_0_r in *.
    cbn [pdfPageLoop]. unfold bind, emit, readPage in *.
    destruct (getPage pdf first) as [page|e0]; cbn [fst snd] in Hfail |- *.
    + cbn [await ret]. rewrite Hfail. reflexivity.
    + injection Hfail as ->. reflexivity.
  - destruct n as [|n]; [lia|].
    cbn [readPages] in Hread. cbn [pdfPageLoop]. unfold bind, emit.
    destruct (getPage pdf first) as [page|e0]; [|discriminate].
    cbn [await ret].
    destruct (getTextContent page) as [items|e0]; [|discriminate].
    cbn [await ret].
    destruct (readPages pdf k (S first)) as [rest|] eqn:E; [|discriminate].
    rewrite Nat.add_succ_r in Hfail.
    rewrite (IH n (S first) _ l rest e (proj2 (Nat.succ_lt_mono k n) Hlt) E Hfail).
    rewrite Nat.add_succ_r. reflexivity.
Qed.

(** X1. When pages 1..k of a PDF can be read and page k+1 cannot (pdf.js
    rejects [getPage] or [getTextContent] with [e]), [extractTextFromPDF]
    rejects with [e] itself: the text of the pages read so far is dropped
    and no later page is requested. *)
Theorem pdf_stops_at_first_unreadable_page env file buffer pdf k pages e :
  arrayBuffer env file = Resolved buffer ->
  getDocument env buffer = Resolved pdf ->
  k < numPages pdf ->
  readPages pdf k 1 = Some pages ->
  fst (readPage pdf (S k)) = Rejected e ->
  extractTextFromPDF env file tt
  = (Throw e, tt,
     [Enter PdfDecoder; CallArrayBuffer; CallGetDocument]
     ++ flat_map (fun n => [CallGetPage n; CallGetTextContent n]) (seq 1 k)
     ++ snd (readPage pdf (S k))).
Proof.
  intros Hb Hd Hlt Hread Hfail.
  unfold extractTextFromPDF, call, bind, emit.
  rewrite Hb. cbn [await ret]. rewrite Hd. cbn [await ret].
  rewrite (pdfPageLoop_fails pdf k (numPages pdf) 1 [] tt pages e Hlt Hread Hfail).
  reflexivity.
Qed.

(** X1 on a document that announces three pages and has one. *)
Lemma pdf_stops_at_first_unreadable_page_witness :
  extractTextFromPDF Cases.truncatedPdfEnv Scenario.pdfFile tt
  = (Throw (Error (lit "Invalid page request")), tt,
     [Enter PdfDecoder; CallArrayBuffer; CallGetDocument;
      CallGetPage 1; CallGetTextContent 1; CallGetPage 2]).
Proof.
  exact (pdf_stops_at_first_unreadable_page
           Cases.truncatedPdfEnv Scenario.pdfFile (bytes Scenario.pdfFile)
           Cases.truncatedPdf 1 [[ {| str := lit "A" |} ]]
           (Error (lit "Invalid page request"))
           eq_refl eq_refl (le_n_S 1 2 (le_S 1 1 (le_n 1))) eq_refl eq_refl).
Defined.

Lemma createdWith_app (a b : list event) :
  createdWith (a ++ b) = createdWith a ++ createdWith b.
Proof. apply flat_map_app. Qed.

Lemma recognitions_app (a b : list event) :
  recognitions (a ++ b) = recognitions a + recognitions b.
Proof. unfold recognitions. rewrite filter_app, length_app. reflexivity. Qed.

Lemma withoutSinks_app (a b : list event) :
  withoutSinks (a ++ b) = withoutSinks a ++ withoutSinks b.
Proof. apply filter_app. Qed.

Lemma terminations_loggersMultiLang onProgress ms :
  terminations (flat_map (loggerMultiLangTrace onProgress) ms) = 0.
Proof.
  induction ms as [|m ms IH]; [reflexivity|].
  cbn [flat_map]. rewrite terminations_app, IH.
  destruct onProgress; reflexivity.
Qed.

Lemma createdWith_loggers onProgress ms :
  createdWith (flat_map (loggerTrace onProgress) ms) = [].
Proof.
  induction ms as [|m ms IH]; [reflexivity|].
  cbn [flat_map]. rewrite createdWith_app, IH. unfold loggerTrace.
  destruct (onProgress && isEnumeratedStage m); reflexivity.
Qed.

Lemma createdWith_loggersMultiLang onProgress ms :
  createdWith (flat_map (loggerMultiLangTrace onProgress) ms) = [].
Proof.
  induction ms as [|m ms IH]; [reflexivity|].
  cbn [flat_map]. rewrite createdWith_app, IH.
  destruct onProgress; reflexivity.
Qed.

Lemma createdWith_terminate b w : createdWith (terminateTrace b w) = [].
Proof. unfold terminateTrace. destruct (terminate w), b; reflexivity. Qed.

Lemma recognitions_loggers onProgress ms :
  recognitions (flat_map (loggerTrace onProgress) ms) = 0.
Proof.
  induction ms as [|m ms IH]; [reflexivity|].
  cbn [flat_map]. rewrite recognitions_app, IH. unfold loggerTrace.
  destruct (onProgress && isEnumeratedStage m); reflexivity.
Qed.

Lemma recognitions_loggersMultiLang onProgress ms :
  recognitions (flat_map (loggerMultiLangTrace onProgress) ms) = 0.
Proof.
  induction ms as [|m ms IH]; [reflexivity|].
  cbn [flat_map]. rewrite recognitions_app, IH.
  destruct onProgress; reflexivity.
Qed.

Lemma recognitions_terminate b w : recognitions (terminateTrace b w) = 0.
Proof. unfold terminateTrace. destruct (terminate w), b; reflexivity. Qed.

Lemma withoutSinks_loggers onProgress ms :
  withoutSinks (flat_map (loggerTrace onProgress) ms)
  = flat_map (loggerTrace false) ms.
Proof.
  induction ms as [|m ms IH]; [reflexivity|].
  cbn [flat_map]. rewrite withoutSinks_app, IH. unfold loggerTrace.
  destruct (onProgress && isEnumeratedStage m); reflexivity.
Qed.

Lemma withoutSinks_loggersMultiLang onProgress ms :
  withoutSinks (flat_map (loggerMultiLangTrace onProgress) ms)
  = flat_map (loggerMultiLangTrace false) ms.
Proof.
  induction ms as [|m ms IH]; [reflexivity|].
  cbn [flat_map]. rewrite withoutSinks_app, IH.
  destruct onProgress; reflexivity.
Qed.

Lemma withoutSinks_terminate b w :
  withoutSinks (terminateTrace b w) = terminateTrace b w.
Proof. unfold terminateTrace. destruct (terminate w), b; reflexivity. Qed.

Create Rewrite HintDb observe.
#[local] Hint Rewrite createdWith_app recognitions_app withoutSinks_app
  terminations_app terminations_loggers terminations_loggersMultiLang
  terminations_terminate
  createdWith_loggers createdWith_loggersMultiLang createdWith_terminate
  recognitions_loggers recognitions_loggersMultiLang recognitions_terminate
  withoutSinks_loggers withoutSinks_loggersMultiLang withoutSinks_terminate
  app_nil_r : observe.

(** Case analysis on how an OCR run went, after its run lemma. *)
Ltac ocr_recognized file :=
  match goal with
  | w : Worker |- _ =>
      destruct (snd (recognize w file)) as [?data|?e];
      [ match goal with
        | data : RecognitionData |- _ =>
            destruct (noText (text data)) eqn:?Hno;
            [|try match goal with
                  | |- context [lessThan (confidence data) 60] =>
                      destruct (lessThan (confidence data) 60)
                  end]
        end
      |]
  end.

Ltac ocr_cases env langs file :=
  cbv zeta;
  destruct (snd (createWorker env langs)) as [?w|?e];
  [ocr_recognized file|].



(** X3. [extractTextFromImageMultiLang] terminates the worker exactly once
    when [createWorker] resolved, whether the call then resolves or
    rejects, and does not call [terminate] when no worker was created. *)
Theorem multilang_terminates_once_per_created_worker
    env file languages onProgress :
  terminations (trace_of (extractTextFromImageMultiLang env file languages
                            onProgress tt))
  = match snd (createWorker env (join (lit "+") languages)) with
    | Resolved _ => 1
    | Rejected _ => 0
    end.
Proof.
  rewrite extractTextFromImageMultiLang_run.
  ocr_cases env (join (lit "+") languages) file;
    cbn [trace_of snd]; autorewrite with observe; reflexivity.
Qed.

(** X4. When recognition resolves with a text that is empty after
    trimming, [extractTextFromImageMultiLang] rejects with
    "OCR processing failed: No text could be recognized in the image.":
    its validation message reaches the caller, behind the prefix of the
    catch block. *)
Theorem multilang_no_text_message_kept
    env file languages onProgress w data :
  snd (createWorker env (join (lit "+") languages)) = Resolved w ->
  snd (recognize w file) = Resolved data ->
  trim (text data) = [] ->
  result_of (extractTextFromImageMultiLang env file languages onProgress tt)
  = Throw (Error (lit "OCR processing failed: "
                  ++ lit "No text could be recognized in the image.")).
Proof.
  intros Hw Hd Ht. apply noText_true in Ht.
  rewrite extractTextFromImageMultiLang_run. cbv zeta.
  rewrite Hw, Hd, Ht. reflexivity.
Qed.

(** X4 at scenario C. *)
Lemma multilang_no_text_message_kept_witness :
  result_of (extractTextFromImageMultiLang Scenario.scenarioC
               Scenario.pngFile [lit "eng"; lit "fra"] false tt)
  = Throw (Error (lit "OCR processing failed: "
                  ++ lit "No text could be recognized in the image.")).
Proof.
  apply (multilang_no_text_message_kept
           Scenario.scenarioC Scenario.pngFile [lit "eng"; lit "fra"] false
           {| recognize := fun _ =>
                ([], Resolved {| text := []; confidence := 95 |});
              terminate := Resolved tt |}
           {| text := []; confidence := 95 |}
           eq_refl eq_refl eq_refl).
Defined.

(** X5. A text returned by [extractTextFromImageMultiLang] is the trimmed
    recognized text: it is not empty and has no leading or trailing white
    space. *)
Theorem multilang_returns_trimmed_non_empty_text
    env file languages onProgress out :
  result_of (extractTextFromImageMultiLang env file languages onProgress tt)
  = Return out ->
  0 < List.length out /\ trim out = out.
Proof.
  rewrite extractTextFromImageMultiLang_run.
  ocr_cases env (join (lit "+") languages) file; try discriminate.
  intros H; injection H as <-. rewrite trim_idem. split; [|reflexivity].
  apply noText_false in Hno. destruct (trim (text data)); [congruence|].
  cbn. lia.
Qed.

(** X5 at scenario B. *)
Lemma multilang_returns_trimmed_witness :
  0 < List.length (lit "Invoice #123")
  /\ trim (lit "Invoice #123") = lit "Invoice #123".
Proof.
  apply (multilang_returns_trimmed_non_empty_text
           Scenario.scenarioB Scenario.pngFile [lit "eng"] true
           (lit "Invoice #123")).
  reflexivity.
Defined.

(** X6. One engine and one pass per OCR call.  The single-language
    function calls [createWorker] exactly once, for "eng"; the
    multi-language one calls it exactly once, for the language codes joined
    by "+" (so not once per language); each calls [worker.recognize] once
    when the worker was created and never otherwise. *)
Theorem ocr_one_worker_one_pass env file languages onProgress :
  let single := trace_of (extractTextFromImage env file onProgress tt) in
  let multi := trace_of (extractTextFromImageMultiLang env file languages
                           onProgress tt) in
  createdWith single = [lit "eng"]
  /\ recognitions single
     = match snd (createWorker env (lit "eng")) with
       | Resolved _ => 1
       | Rejected _ => 0
       end
  /\ createdWith multi = [join (lit "+") languages]
  /\ recognitions multi
     = match snd (createWorker env (join (lit "+") languages)) with
       | Resolved _ => 1
       | Rejected _ => 0
       end.
Proof.
  cbv zeta.
  rewrite extractTextFromImage_run, extractTextFromImageMultiLang_run.
  split; [|split; [|split]].
  - ocr_cases env (lit "eng") file;
      cbn [trace_of snd]; autorewrite with observe; reflexivity.
  - ocr_cases env (lit "eng") file;
      cbn [trace_of snd]; autorewrite with observe; reflexivity.
  - ocr_cases env (join (lit "+") languages) file;
      cbn [trace_of snd]; autorewrite with observe; reflexivity.
  - ocr_cases env (join (lit "+") languages) file;
      cbn [trace_of snd]; autorewrite with observe; reflexivity.
Qed.



Lemma sinkCalls_extractTextFromImage env file onProgress :
  sinkCalls (trace_of (extractTextFromImage env file onProgress tt))
  = if onProgress
    then map payload (filter isEnumeratedStage (delivered env (lit "eng") file))
    else [].
Proof.
  rewrite extractTextFromImage_run. unfold delivered.
  ocr_cases env (lit "eng") file;
    cbn [trace_of snd]; autorewrite with trace;
    rewrite ?filter_app, ?map_app; destruct onProgress; reflexivity.
Qed.

Lemma sinkCalls_extractTextFromImageMultiLang env file languages onProgress :
  sinkCalls (trace_of (extractTextFromImageMultiLang env file languages
                         onProgress tt))
  = if onProgress
    then map payloadMultiLang (delivered env (join (lit "+") languages) file)
    else [].
Proof.
  rewrite extractTextFromImageMultiLang_run. unfold delivered.
  ocr_cases env (join (lit "+") languages) file;
    cbn [trace_of snd]; autorewrite with trace;
    rewrite ?map_app; destruct onProgress; reflexivity.
Qed.

Lemma orZero_is_number (p : jsnumber) : exists q, orZero p = Num q.
Proof.
  destruct p as [q|]; cbn; [destruct (Qeq_bool q 0)|]; eexists; reflexivity.
Qed.

(** X8. What the progress callback receives.  From the multi-language
    function: one call per message of the engine, with the status of that
    message and a progress that is always a number (an absent progress is
    passed as 0).  From the single-language function the progress is a
    number too, except for "recognizing text" messages, whose progress is
    passed as it came, the absent one included. *)
Theorem progress_callback_arguments env file languages :
  let multi := sinkCalls (trace_of (extractTextFromImageMultiLang env file
                                      languages true tt)) in
  let single := sinkCalls (trace_of (extractTextFromImage env file true tt)) in
  map status multi = map status (delivered env (join (lit "+") languages) file)
  /\ Forall (fun m => exists q, progress m = Num q) multi
  /\ Forall (fun m => status m = statusRecognizing
                      \/ exists q, progress m = Num q) single
  /\ (forall m, In m (delivered env (lit "eng") file) ->
                status m = statusRecognizing ->
                In m single).
Proof.
  cbv zeta. rewrite sinkCalls_extractTextFromImageMultiLang,
    sinkCalls_extractTextFromImage.
  split; [|split; [|split]].
  - rewrite map_map. reflexivity.
  - apply Forall_forall. intros m Hm. apply in_map_iff in Hm.
    destruct Hm as (m0 & <- & _). apply orZero_is_number.
  - apply Forall_forall. intros m Hm. apply in_map_iff in Hm.
    destruct Hm as (m0 & <- & _). unfold payload. cbn [status progress].
    destruct (JsString.eqb (status m0) statusRecognizing) eqn:E.
    + left. apply eqb_eq, E.
    + right. apply orZero_is_number.
  - intros m Hin Hs. apply in_map_iff. exists m. split.
    + unfold payload. destruct m as [st pr]. cbn [status progress] in *.
      subst st. reflexivity.
    + apply filter_In. split; [exact Hin|].
      unfold isEnumeratedStage. rewrite Hs. reflexivity.
Qed.

(** X8 when the engine sends a "recognizing text" message without
    progress. *)
Lemma progress_callback_arguments_witness :
  In Cases.bareMessage
     (sinkCalls (trace_of (extractTextFromImage Cases.scenarioBare
                             Scenario.pngFile true tt))).
Proof.
  apply (proj2 (proj2 (proj2 (progress_callback_arguments
                                Cases.scenarioBare Scenario.pngFile
                                [lit "eng"])))
           Cases.bareMessage).
  - cbn. auto.
  - reflexivity.
Defined.



Lemma sinkCalls_dispatched {A L} (r : completion A * L * list event) :
  sinkCalls (trace_of (dispatched r)) = sinkCalls (trace_of r).
Proof.
  destruct r as [[[a|e] l] t]; cbn [dispatched trace_of snd]; [reflexivity|].
  rewrite sinkCalls_app. apply app_nil_r.
Qed.

Lemma pdfPageLoop_sinkCalls {L} pdf remaining :
  forall first fullText (l : L),
    sinkCalls (trace_of (pdfPageLoop pdf remaining first fullText l)) = [].
Proof.
  induction remaining as [|n IH]; intros first fullText l; [reflexivity|].
  cbn [pdfPageLoop]. unfold bind, emit.
  destruct (getPage pdf first) as [page|e]; [|reflexivity].
  cbn [await ret]. destruct (getTextContent page) as [items|e]; [|reflexivity].
  cbn [await ret]. specialize (IH (S first)
    (fullText ++ join (lit " ") (map str items) ++ [10; 10]%N) l).
  destruct (pdfPageLoop pdf n (S first) _ l) as [[r l'] t]. exact IH.
Qed.

Lemma sinkCalls_PDF {L} env file (l : L) :
  sinkCalls (trace_of (extractTextFromPDF env file l)) = [].
Proof.
  unfold extractTextFromPDF, call, bind, emit.
  destruct (arrayBuffer env file) as [buffer|e]; [|reflexivity].
  cbn [await ret]. destruct (getDocument env buffer) as [pdf|e]; [|reflexivity].
  cbn [await ret].
  pose proof (pdfPageLoop_sinkCalls pdf (numPages pdf) 1 [] tt) as H.
  destruct (pdfPageLoop pdf (numPages pdf) 1 [] tt) as [[[fullText|e] l'] t];
    cbn [trace_of snd] in *; cbn -[sinkCalls]; rewrite ?app_nil_r;
    change (sinkCalls (Enter PdfDecoder :: CallArrayBuffer
                         :: CallGetDocument :: t)) with (sinkCalls t);
    exact H.
Qed.

Lemma sinkCalls_DOCX {L} env file (l : L) :
  sinkCalls (trace_of (extractTextFromDOCX env file l)) = [].
Proof.
  unfold extractTextFromDOCX, call, bind, emit.
  destruct (arrayBuffer env file) as [buffer|e]; [|reflexivity].
  cbn [await ret]. destruct (extractRawText env buffer); reflexivity.
Qed.

(** X10. The progress callback only matters on the image path: for a file
    whose type does not start with "image/", [extractTextFromFile] behaves
    the same with and without a callback, and never calls it. *)
Theorem dispatcher_uses_callback_only_for_images env file :
  startsWith (type file) mimeImagePrefix = false ->
  extractTextFromFile env file true tt = extractTextFromFile env file false tt
  /\ sinkCalls (trace_of (extractTextFromFile env file true tt)) = [].
Proof.
  intros Hi. rewrite !extractTextFromFile_run, Hi. split; [reflexivity|].
  rewrite sinkCalls_dispatched.
  destruct (JsString.eqb (type file) mimePdf); [apply sinkCalls_PDF|].
  destruct (JsString.eqb (type file) mimeDocx); [apply sinkCalls_DOCX|].
  reflexivity.
Qed.

(** X10 at scenario A. *)
Lemma dispatcher_uses_callback_only_for_images_witness :
  extractTextFromFile Scenario.scenarioA Scenario.pdfFile true tt
  = extractTextFromFile Scenario.scenarioA Scenario.pdfFile false tt.
Proof.
  apply (dispatcher_uses_callback_only_for_images
           Scenario.scenarioA Scenario.pdfFile).
  reflexivity.
Defined.

(** X11. Progress reporting does not interfere with recognition: an OCR
    call with a callback settles exactly as the call without one, and
    apart from the calls of the callback the two runs perform the same
    effects in the same order. *)
Theorem ocr_callback_does_not_interfere env file languages :
  result_of (extractTextFromImage env file true tt)
  = result_of (extractTextFromImage env file false tt)
  /\ withoutSinks (trace_of (extractTextFromImage env file true tt))
     = trace_of (extractTextFromImage env file false tt)
  /\ result_of (extractTextFromImageMultiLang env file languages true tt)
     = result_of (extractTextFromImageMultiLang env file languages false tt)
  /\ withoutSinks (trace_of (extractTextFromImageMultiLang env file
                               languages true tt))
     = trace_of (extractTextFromImageMultiLang env file languages false tt).
Proof.
  rewrite !extractTextFromImage_run, !extractTextFromImageMultiLang_run.
  split; [|split; [|split]].
  - ocr_cases env (lit "eng") file; reflexivity.
  - ocr_cases env (lit "eng") file;
      cbn [trace_of snd]; autorewrite with observe; reflexivity.
  - ocr_cases env (join (lit "+") languages) file; reflexivity.
  - ocr_cases env (join (lit "+") languages) file;
      cbn [trace_of snd]; autorewrite with observe; reflexivity.
Qed.

Lemma trim_bracketed c d (s : jsstring) :
  isWhiteSpace c = false -> isWhiteSpace d = false ->
  trim (c :: s ++ [d]) = c :: s ++ [d].
Proof.
  intros Hc Hd. unfold trim, trimStart. cbn [dropWhile]. rewrite Hc.
  unfold trimEnd. change (c :: s ++ [d]) with ((c :: s) ++ [d]).
  rewrite rev_app_distr. cbn [rev app dropWhile]. rewrite Hd.
  cbn [rev]. rewrite rev_app_distr, rev_involutive. reflexivity.
Qed.

Lemma mockOCRText_bracketed file :
  exists s, Legacy.mockOCRText file = 84%N :: s ++ [46%N].
Proof.
  unfold Legacy.mockOCRText.
  match goal with
  | |- context [?pre ++ name file ++ ?post] =>
      exists (tl pre ++ name file ++ removelast post);
      change pre with (84%N :: tl pre);
      replace post with (removelast post ++ [46%N]) at 1
        by (vm_compute; reflexivity)
  end.
  cbn [app]. rewrite <- !app_assoc. reflexivity.
Qed.

(** X12. The placeholder image decoder of src/utils/fileParser.js, through
    its dispatcher: when the reader loads the file the call resolves with
    the fixed text around the file's name, which is already trimmed and not
    blank (so it passes the caller's validation whatever the name is);
    when the reader fails it rejects with
    "Failed to extract text: Failed to read image file". *)
Theorem legacy_image_placeholder env readAsDataURL file :
  startsWith (type file) mimeImagePrefix = true ->
  (readAsDataURL file = true ->
   result_of (Legacy.extractTextFromFile env readAsDataURL file tt)
   = Return (Legacy.mockOCRText file)
   /\ trim (Legacy.mockOCRText file) = Legacy.mockOCRText file
   /\ noText (Legacy.mockOCRText file) = false)
  /\ (readAsDataURL file = false ->
      result_of (Legacy.extractTextFromFile env readAsDataURL file tt)
      = Throw (Error (lit "Failed to extract text: Failed to read image file"))).
Proof.
  intros Ht. rewrite legacy_extractTextFromFile_run.
  destruct (image_not_pdf_docx _ Ht) as [-> ->]. rewrite Ht.
  unfold Legacy.extractTextFromImage, call, bind, emit. split; intros ->.
  - split; [reflexivity|].
    destruct (mockOCRText_bracketed file) as [s Hs].
    assert (Htrim : trim (Legacy.mockOCRText file) = Legacy.mockOCRText file).
    { rewrite Hs. apply trim_bracketed; reflexivity. }
    split; [exact Htrim|].
    destruct (noText (Legacy.mockOCRText file)) eqn:E; [|reflexivity].
    apply noText_true in E. rewrite Htrim, Hs in E. discriminate.
  - reflexivity.
Qed.

(** X12 at a PNG file, with a reader that loads and one that fails. *)
Lemma legacy_image_placeholder_witness :
  result_of (Legacy.extractTextFromFile Scenario.noLibraries (fun _ => true)
               Scenario.pngFile tt)
  = Return (Legacy.mockOCRText Scenario.pngFile)
  /\ result_of (Legacy.extractTextFromFile Scenario.noLibraries
                  (fun _ => false) Scenario.pngFile tt)
     = Throw (Error (lit "Failed to extract text: Failed to read image file")).
Proof.
  split.
  - apply (proj1 (legacy_image_placeholder Scenario.noLibraries
                    (fun _ => true) Scenario.pngFile eq_refl) eq_refl).
  - apply (proj2 (legacy_image_placeholder Scenario.noLibraries
                    (fun _ => false) Scenario.pngFile eq_refl) eq_refl).
Defined.

(* ================================================================== *)
(** ** Properties of the handlers of App.jsx *)

Lemma withOcrProgress_twice z1 z2 s :
  App.withOcrProgress z1 (App.withOcrProgress z2 s) = App.withOcrProgress z1 s.
Proof. reflexivity. Qed.

Lemma handleOcrProgress_state roundPercent progressData s :
  exists z,
    snd (fst (App.handleOcrProgress roundPercent progressData s))
    = App.withOcrProgress z s.
Proof.
  unfold App.handleOcrProgress.
  destruct (progress progressData) as [p|];
    [destruct (Qeq_bool p 0)|].
  - exists (App.ocrProgress s). destruct s; reflexivity.
  - exists (roundPercent p). reflexivity.
  - exists (App.ocrProgress s). destruct s; reflexivity.
Qed.

(** The progress callbacks of one extraction only move [ocrProgress]. *)
Lemma progress_callbacks_state roundPercent calls :
  forall s, exists z,
    fold_left
      (fun s' progressData =>
         snd (fst (App.handleOcrProgress roundPercent progressData s')))
      calls s
    = App.withOcrProgress z s.
Proof.
  induction calls as [|c calls IH]; intros s; cbn [fold_left].
  - exists (App.ocrProgress s). destruct s; reflexivity.
  - destruct (handleOcrProgress_state roundPercent c s) as [z1 ->].
    destruct (IH (App.withOcrProgress z1 s)) as [z2 ->].
    exists z2. reflexivity.
Qed.

(** Runs [handleFileUpload] up to the point where the extraction has
    settled as in hypothesis [E]. *)
Ltac run_upload E roundPercent :=
  unfold App.handleFileUpload, App.awaitExtraction, App.awaitGenerateSummary,
    tryFinally, tryCatch, bind, App.setError, App.setIsProcessing,
    App.setProcessingStage, App.setUploadedFile, App.setExtractedText,
    App.setEditorContent, App.setOcrProgress, App.update;
  rewrite E;
  match goal with
  | |- context [fold_left ?f ?calls ?s] =>
      let z := fresh "z" in
      let Hz := fresh "Hz" in
      destruct (progress_callbacks_state roundPercent calls s) as [z Hz];
      rewrite Hz; clear Hz
  end.


(** X14. When the extraction rejects, [handleFileUpload] shows the message
    of the rejection (which X9 says starts with "Failed to extract text: ")
    and sends nothing to the summarization service: the extracted text and
    the editor stay empty. *)
Theorem upload_shows_extraction_failure
    env generateSummary roundPercent file s0 e :
  result_of (extractTextFromFile env file true tt) = Throw e ->
  snd (fst (App.handleFileUpload env generateSummary roundPercent file s0))
  = {| App.uploadedFile := Some file;
       App.extractedText := [];
       App.editorContent := [];
       App.isProcessing := false;
       App.isImproving := App.isImproving s0;
       App.error := App.errorOf e;
       App.processingStage := [];
       App.showImprovementModal := App.showImprovementModal s0;
       App.ocrProgress := 0;
       App.summaryRequests := App.summaryRequests s0;
       App.improveRequests := App.improveRequests s0 |}.
Proof.
  destruct (extractTextFromFile env file true tt) as [[[text|e0] u] t] eqn:E;
    cbn [result_of fst]; intros H; [discriminate|]. injection H as ->.
  run_upload E roundPercent. reflexivity.
Qed.

(** X14 at a text file: the alert reads
    "Failed to extract text: Unsupported file type". *)
Lemma upload_shows_extraction_failure_witness :
  App.error
    (snd (fst (App.handleFileUpload Scenario.noLibraries
                 (fun _ => Resolved (lit "<p>s</p>")) (fun _ => 0%Z)
                 Scenario.txtFile App.initialState)))
  = App.ErrorMessage (lit "Failed to extract text: Unsupported file type").
Proof.
  rewrite (upload_shows_extraction_failure
             Scenario.noLibraries (fun _ => Resolved (lit "<p>s</p>"))
             (fun _ => 0%Z) Scenario.txtFile App.initialState
             (Error (lit "Failed to extract text: Unsupported file type"))
             eq_refl).
  reflexivity.
Defined.

(** X15. When the extraction resolves with a text that is empty after
    trimming (as the dispatcher does for a PDF without text or an empty
    DOCX), [handleFileUpload] shows "No text could be extracted from the
    file. ..." and sends nothing to the summarization service; the
    extracted text and the editor stay empty. *)
Theorem upload_rejects_blank_extraction
    env generateSummary roundPercent file s0 text :
  result_of (extractTextFromFile env file true tt) = Return text ->
  trim text = [] ->
  snd (fst (App.handleFileUpload env generateSummary roundPercent file s0))
  = {| App.uploadedFile := Some file;
       App.extractedText := [];
       App.editorContent := [];
       App.isProcessing := false;
       App.isImproving := App.isImproving s0;
       App.error := App.ErrorMessage App.msgNoTextExtracted;
       App.processingStage := [];
       App.showImprovementModal := App.showImprovementModal s0;
       App.ocrProgress := 0;
       App.summaryRequests := App.summaryRequests s0;
       App.improveRequests := App.improveRequests s0 |}.
Proof.
  destruct (extractTextFromFile env file true tt) as [[[text0|e] u] t] eqn:E;
    cbn [result_of fst]; intros H; [|discriminate]. injection H as ->.
  intros Hblank. apply noText_true in Hblank.
  run_upload E roundPercent. rewrite Hblank. reflexivity.
Qed.

(** X15 at a PDF whose two pages hold no text. *)
Lemma upload_rejects_blank_extraction_witness :
  let s := snd (fst (App.handleFileUpload (Scenario.pdfEnv [[]; []])
                       (fun _ => Resolved (lit "<p>s</p>")) (fun _ => 0%Z)
                       Scenario.pdfFile App.initialState)) in
  App.error s = App.ErrorMessage App.msgNoTextExtracted
  /\ App.summaryRequests s = [].
Proof.
  cbv zeta.
  rewrite (upload_rejects_blank_extraction
             (Scenario.pdfEnv [[]; []]) (fun _ => Resolved (lit "<p>s</p>"))
             (fun _ => 0%Z) Scenario.pdfFile App.initialState []
             eq_refl eq_refl).
  split; reflexivity.
Defined.

(** X16. When the extraction resolves with a text that is not blank and
    the summarization resolves with a summary that is not blank,
    [handleFileUpload] stores the text as extracted, puts the summary in
    the editor, leaves no error, and has sent exactly one request, with the
    extracted text as it came. *)
Theorem upload_success env generateSummary roundPercent file s0 text summary :
  result_of (extractTextFromFile env file true tt) = Return text ->
  trim text <> [] ->
  generateSummary text = Resolved summary ->
  trim summary <> [] ->
  snd (fst (App.handleFileUpload env generateSummary roundPercent file s0))
  = {| App.uploadedFile := Some file;
       App.extractedText := text;
       App.editorContent := summary;
       App.isProcessing := false;
       App.isImproving := App.isImproving s0;
       App.error := App.NoError;
       App.processingStage := [];
       App.showImprovementModal := App.showImprovementModal s0;
       App.ocrProgress := 0;
       App.summaryRequests := App.summaryRequests s0 ++ [text];
       App.improveRequests := App.improveRequests s0 |}.
Proof.
  destruct (extractTextFromFile env file true tt) as [[[text0|e] u] t] eqn:E;
    cbn [result_of fst]; intros H; [|discriminate]. injection H as ->.
  intros Ht Hg Hs.
  assert (Hnt : noText text = false).
  { destruct (noText text) eqn:En; [|reflexivity].
    apply noText_true in En. contradiction. }
  assert (Hns : noText summary = false).
  { destruct (noText summary) eqn:En; [|reflexivity].
    apply noText_true in En. contradiction. }
  run_upload E roundPercent. rewrite Hnt. cbn -[lit]. rewrite Hg.
  cbn -[lit]. rewrite Hns. reflexivity.
Qed.

(** X16 at scenario A. *)
Lemma upload_success_witness :
  let s := snd (fst (App.handleFileUpload Scenario.scenarioA
                       (fun _ => Resolved (lit "<p>s</p>")) (fun _ => 0%Z)
                       Scenario.pdfFile App.initialState)) in
  App.extractedText s = lit "Hello World" ++ [10; 10]%N ++ lit "Foo"
  /\ App.editorContent s = lit "<p>s</p>"
  /\ App.summaryRequests s = [lit "Hello World" ++ [10; 10]%N ++ lit "Foo"].
Proof.
  cbv zeta.
  rewrite (upload_success
             Scenario.scenarioA (fun _ => Resolved (lit "<p>s</p>"))
             (fun _ => 0%Z) Scenario.pdfFile App.initialState
             (lit "Hello World" ++ [10; 10]%N ++ lit "Foo") (lit "<p>s</p>")
             eq_refl).
  - repeat split.
  - discriminate.
  - reflexivity.
  - discriminate.
Defined.

(** X17. When the text was extracted but the summarization rejects, or
    resolves with a blank summary, [handleFileUpload] keeps the extracted
    text, leaves the editor empty and shows the message of the rejection,
    respectively "Failed to generate summary. Please try again.". *)
Theorem upload_shows_summary_failure
    env generateSummary roundPercent file s0 text :
  result_of (extractTextFromFile env file true tt) = Return text ->
  trim text <> [] ->
  let shown :=
    match generateSummary text with
    | Rejected e => Some (App.errorOf e)
    | Resolved summary =>
        if noText summary then Some (App.ErrorMessage App.msgSummaryFailed)
        else None
    end in
  forall err, shown = Some err ->
  snd (fst (App.handleFileUpload env generateSummary roundPercent file s0))
  = {| App.uploadedFile := Some file;
       App.extractedText := text;
       App.editorContent := [];
       App.isProcessing := false;
       App.isImproving := App.isImproving s0;
       App.error := err;
       App.processingStage := [];
       App.showImprovementModal := App.showImprovementModal s0;
       App.ocrProgress := 0;
       App.summaryRequests := App.summaryRequests s0 ++ [text];
       App.improveRequests := App.improveRequests s0 |}.
Proof.
  destruct (extractTextFromFile env file true tt) as [[[text0|e] u] t] eqn:E;
    cbn [result_of fst]; intros H; [|discriminate]. injection H as ->.
  intros Ht. cbv zeta. intros err Hshown.
  assert (Hnt : noText text = false).
  { destruct (noText text) eqn:En; [|reflexivity].
    apply noText_true in En. contradiction. }
  run_upload E roundPercent. rewrite Hnt. cbn -[lit].
  destruct (generateSummary text) as [summary|e]; cbn -[lit].
  - destruct (noText summary); [|discriminate].
    injection Hshown as <-. reflexivity.
  - injection Hshown as <-. reflexivity.
Qed.

(** X17 at scenario A with a summarization service that is down. *)
Lemma upload_shows_summary_failure_witness :
  let s := snd (fst (App.handleFileUpload Scenario.scenarioA
                       (fun _ => Rejected Scenario.unavailable)
                       (fun _ => 0%Z) Scenario.pdfFile App.initialState)) in
  App.error s = App.ErrorMessage (lit "not available")
  /\ App.extractedText s = lit "Hello World" ++ [10; 10]%N ++ lit "Foo"
  /\ App.editorContent s = [].
Proof.
  cbv zeta.
  rewrite (upload_shows_summary_failure
             Scenario.scenarioA (fun _ => Rejected Scenario.unavailable)
             (fun _ => 0%Z) Scenario.pdfFile App.initialState
             (lit "Hello World" ++ [10; 10]%N ++ lit "Foo")
             eq_refl ltac:(discriminate)
             (App.ErrorMessage (lit "not available")) eq_refl).
  repeat split.
Defined.

(** X18. [handleImproveWithAI] does not overwrite the editor on failure:
    when the improvement request rejects, or resolves with a blank text,
    the editor content stays what it was and the message of the rejection,
    respectively "Failed to improve content. Please try again.", is shown;
    in every case the modal is closed, [isImproving] ends false and one
    request was sent with the editor content and the instructions. *)
Theorem improve_failure_keeps_editor_content improveSummary instructions s0 :
  let shown :=
    match improveSummary (App.editorContent s0) instructions with
    | Rejected e => Some (App.errorOf e)
    | Resolved improved =>
        if noText improved then Some (App.ErrorMessage App.msgImproveFailed)
        else None
    end in
  forall err, shown = Some err ->
  App.handleImproveWithAI improveSummary instructions s0
  = (Return tt,
     {| App.uploadedFile := App.uploadedFile s0;
        App.extractedText := App.extractedText s0;
        App.editorContent := App.editorContent s0;
        App.isProcessing := App.isProcessing s0;
        App.isImproving := false;
        App.error := err;
        App.processingStage := App.processingStage s0;
        App.showImprovementModal := false;
        App.ocrProgress := App.ocrProgress s0;
        App.summaryRequests := App.summaryRequests s0;
        App.improveRequests :=
          App.improveRequests s0 ++ [(App.editorContent s0, instructions)] |},
     []).
Proof.
  cbv zeta. intros err Hshown.
  unfold App.handleImproveWithAI, App.awaitImproveSummary, tryFinally,
    tryCatch, bind, getLocal, App.setError, App.setIsImproving,
    App.setShowImprovementModal, App.setEditorContent, App.update.
  cbn -[lit].
  destruct (improveSummary (App.editorContent s0) instructions)
    as [improved|e]; cbn -[lit].
  - destruct (noText improved); [|discriminate].
    injection Hshown as <-. reflexivity.
  - injection Hshown as <-. reflexivity.
Qed.

(** X18 with an improvement service that is down. *)
Lemma improve_failure_keeps_editor_content_witness :
  let s0 := App.withEditorContent (lit "<p>s</p>") App.initialState in
  App.editorContent
    (snd (fst (App.handleImproveWithAI
                 (fun _ _ => Rejected Scenario.unavailable)
                 (lit "shorter") s0)))
  = lit "<p>s</p>".
Proof.
  cbv zeta.
  rewrite (improve_failure_keeps_editor_content
             (fun _ _ => Rejected Scenario.unavailable) (lit "shorter")
             (App.withEditorContent (lit "<p>s</p>") App.initialState)
             (App.ErrorMessage (lit "not available")) eq_refl).
  reflexivity.
Defined.



(* ================================================================== *)
(** ** Properties of components/DocumentUploader.jsx *)

Lemma arrayIncludes_spec (array : list jsstring) (s : jsstring) :
  DocumentUploader.arrayIncludes array s = true <-> In s array.
Proof.
  unfold DocumentUploader.arrayIncludes. rewrite existsb_exists. split.
  - intros (x & Hin & Heq). apply eqb_eq in Heq. subst. exact Hin.
  - intros Hin. exists s. split; [exact Hin | apply eqb_refl].
Qed.

(** X20. [validateFile] accepts a file exactly when its type is one of
    "application/pdf", the DOCX type, "image/png", "image/jpeg" and its
    size is at most 10 MB (10485760 bytes).  It clears the previous
    validation error when it accepts; when it rejects it sets the
    unsupported-type message if the type is not one of the four, whatever
    the size, and the size message otherwise.  It never touches the
    parent's state. *)
Theorem validateFile_accepts_supported_types_up_to_10MB
    (P : Type) file (u : DocumentUploader.State) (p : P) :
  let supported :=
    In (type file)
       [lit "application/pdf";
        lit "application/vnd.openxmlformats-officedocument.wordprocessingml.document";
        lit "image/png"; lit "image/jpeg"] in
  exists valid : bool,
    DocumentUploader.validateFile file (u, p)
    = (Return valid,
       ({| DocumentUploader.isDragging := DocumentUploader.isDragging u;
           DocumentUploader.validationError :=
             if valid then None
             else if DocumentUploader.arrayIncludes
                       (map fst DocumentUploader.SUPPORTED_FILE_TYPES)
                       (type file)
                  then Some DocumentUploader.msgTooLarge
                  else Some DocumentUploader.msgUnsupportedType |}, p),
       [])
    /\ (valid = true <->
        supported /\ (DocumentUploader.size file <= 10485760)%N)
    /\ (~ supported ->
        DocumentUploader.validationError
          (fst (snd (fst (DocumentUploader.validateFile file (u, p)))))
        = Some DocumentUploader.msgUnsupportedType).
Proof.
  cbv zeta.
  change [lit "application/pdf";
          lit "application/vnd.openxmlformats-officedocument.wordprocessingml.document";
          lit "image/png"; lit "image/jpeg"]
    with (map fst DocumentUploader.SUPPORTED_FILE_TYPES).
  unfold DocumentUploader.validateFile, bind,
    DocumentUploader.setValidationError.
  cbn [fst snd].
  destruct (DocumentUploader.arrayIncludes
              (map fst DocumentUploader.SUPPORTED_FILE_TYPES) (type file))
    eqn:Et; cbn [negb].
  - apply arrayIncludes_spec in Et.
    destruct (N.ltb DocumentUploader.MAX_FILE_SIZE
                (DocumentUploader.size file)) eqn:Es.
    + exists false. split; [reflexivity|]. split.
      * split; [discriminate|]. intros [_ Hle].
        apply N.ltb_lt in Es. change DocumentUploader.MAX_FILE_SIZE
          with 10485760%N in Es. lia.
      * intros Hn. contradiction.
    + exists true. split; [reflexivity|]. split.
      * split; [|reflexivity]. intros _. split; [exact Et|].
        apply N.ltb_ge in Es. exact Es.
      * intros Hn. contradiction.
  - exists false. split; [reflexivity|]. split.
    + split; [discriminate|]. intros [Hin _].
      apply (proj2 (arrayIncludes_spec _ _)) in Hin. congruence.
    + reflexivity.
Qed.

(** X20 at a text file. *)
Lemma validateFile_witness :
  DocumentUploader.validationError
    (fst (snd (fst (DocumentUploader.validateFile Scenario.txtFile
                      ({| DocumentUploader.isDragging := false;
                          DocumentUploader.validationError := None |}, tt)))))
  = Some DocumentUploader.msgUnsupportedType.
Proof.
  destruct (validateFile_accepts_supported_types_up_to_10MB unit
              Scenario.txtFile
              {| DocumentUploader.isDragging := false;
                 DocumentUploader.validationError := None |} tt)
    as (valid & _ & _ & H).
  apply H. cbn. intros [H1|[H1|[H1|[H1|[]]]]]; discriminate H1.
Defined.

Lemma validateFile_run (P : Type) file (s : DocumentUploader.State * P) :
  exists valid v,
    DocumentUploader.validateFile file s
    = (Return valid,
       ({| DocumentUploader.isDragging := DocumentUploader.isDragging (fst s);
           DocumentUploader.validationError := v |}, snd s),
       [])
    /\ (valid = true ->
        DocumentUploader.arrayIncludes
          (map fst DocumentUploader.SUPPORTED_FILE_TYPES) (type file) = true).
Proof.
  unfold DocumentUploader.validateFile, bind,
    DocumentUploader.setValidationError.
  cbn [fst snd].
  destruct (DocumentUploader.arrayIncludes
              (map fst DocumentUploader.SUPPORTED_FILE_TYPES) (type file));
    cbn [negb].
  - destruct (N.ltb DocumentUploader.MAX_FILE_SIZE
                (DocumentUploader.size file));
      do 2 eexists; (split; [reflexivity|]); [discriminate | reflexivity].
  - do 2 eexists. split; [reflexivity | discriminate].
Qed.

(** X21. The uploader and the dispatcher agree: a file [validateFile]
    accepts is never an unsupported type for [extractTextFromFile], which
    runs exactly one decoder on it (PDF, DOCX or OCR). *)
Theorem accepted_files_are_routed_to_a_decoder
    (P : Type) env file onProgress (u : DocumentUploader.State) (p : P) :
  result_of (DocumentUploader.validateFile file (u, p)) = Return true ->
  exists d,
    entered (trace_of (extractTextFromFile env file onProgress tt)) = [d]
    /\ (d = PdfDecoder \/ d = DocxDecoder \/ d = OcrDecoder).
Proof.
  destruct (validateFile_run P file (u, p)) as (valid & v & -> & Hv).
  cbn [result_of fst]. intros H. injection H as ->.
  specialize (Hv eq_refl). apply arrayIncludes_spec in Hv.
  rewrite extractTextFromFile_run, entered_dispatched.
  cbn [map fst DocumentUploader.SUPPORTED_FILE_TYPES In] in Hv.
  destruct Hv as [<-|[<-|[<-|[<-|[]]]]].
  - exists PdfDecoder. split; [apply entered_PDF | auto].
  - exists DocxDecoder. split; [apply entered_DOCX | auto].
  - exists OcrDecoder. split; [apply entered_Image | auto].
  - exists OcrDecoder. split; [apply entered_Image | auto].
Qed.

(** X21 at a PNG file. *)
Lemma accepted_files_are_routed_witness :
  exists d,
    entered (trace_of (extractTextFromFile Scenario.scenarioB Scenario.pngFile
                         true tt)) = [d]
    /\ (d = PdfDecoder \/ d = DocxDecoder \/ d = OcrDecoder).
Proof.
  apply (accepted_files_are_routed_to_a_decoder unit
           Scenario.scenarioB Scenario.pngFile true
           {| DocumentUploader.isDragging := false;
              DocumentUploader.validationError := None |} tt).
  reflexivity.
Defined.

(** X22. A drop reaches the parent only when the uploader is enabled and
    the first dropped file passes validation.  [handleDrop] always returns
    and clears [isDragging]; when the component is disabled it does nothing
    else (no validation, the validation error stays); when the first file
    is rejected the parent's state is untouched; when it is accepted the
    parent's [onFileUpload] runs once, on that file only, and a rejection
    of its promise does not propagate. *)
Theorem drop_reaches_parent_only_when_enabled_and_valid
    (P : Type) (onFileUpload : File -> M P unit) disabled files
    (u : DocumentUploader.State) (p : P) :
  let r := DocumentUploader.handleDrop onFileUpload disabled files (u, p) in
  result_of r = Return tt
  /\ DocumentUploader.isDragging (fst (snd (fst r))) = false
  /\ (disabled = true ->
      r = (Return tt,
           ({| DocumentUploader.isDragging := false;
               DocumentUploader.validationError :=
                 DocumentUploader.validationError u |}, p),
           []))
  /\ (forall file rest valid,
        disabled = false -> files = file :: rest ->
        result_of (DocumentUploader.validateFile file (u, p)) = Return valid ->
        snd (snd (fst r))
        = (if valid then snd (fst (onFileUpload file p)) else p)
        /\ trace_of r
           = (if valid then trace_of (onFileUpload file p) else [])).
Proof.
  cbv zeta. unfold DocumentUploader.handleDrop, bind,
    DocumentUploader.setIsDragging. cbn [fst snd].
  destruct disabled.
  - repeat split; congruence.
  - destruct files as [|file rest].
    + repeat split; congruence.
    + unfold DocumentUploader.handleFile, bind.
      assert (Hsame : forall (s s' : DocumentUploader.State * P),
                snd s = snd s' ->
                result_of (DocumentUploader.validateFile file s)
                = result_of (DocumentUploader.validateFile file s')).
      { intros s s' _. unfold DocumentUploader.validateFile, bind,
          DocumentUploader.setValidationError. cbn [fst snd].
        destruct (DocumentUploader.arrayIncludes _ _); cbn [negb];
          [destruct (N.ltb _ _)|]; reflexivity. }
      destruct (validateFile_run P file
                  ({| DocumentUploader.isDragging := false;
                      DocumentUploader.validationError :=
                        DocumentUploader.validationError u |}, p))
        as (valid & v & Hrun & _).
      pose proof (Hsame (u, p)
                    ({| DocumentUploader.isDragging := false;
                        DocumentUploader.validationError :=
                          DocumentUploader.validationError u |}, p)
                    eq_refl) as Hres.
      rewrite Hrun in Hres |- *. cbn [result_of fst snd] in Hres.
      unfold DocumentUploader.callOnFileUpload.
      destruct valid; cbn -[lit];
        destruct (onFileUpload file p) as [[r' p'] t'] eqn:Eup;
        cbn -[lit].
      * split; [reflexivity|]. split; [reflexivity|].
        split; [discriminate|].
        intros file0 rest0 valid0 _ Hf Hv. injection Hf as <- <-.
        change (result_of (DocumentUploader.validateFile file (u, p))
                = Return valid0) in Hv.
        rewrite Hres in Hv. injection Hv as <-. rewrite ?Eup.
        split; reflexivity.
      * split; [reflexivity|]. split; [reflexivity|].
        split; [discriminate|].
        intros file0 rest0 valid0 _ Hf Hv. injection Hf as <- <-.
        change (result_of (DocumentUploader.validateFile file (u, p))
                = Return valid0) in Hv.
        rewrite Hres in Hv. injection Hv as <-. split; reflexivity.
Qed.

(** X22 with [handleFileUpload] as the parent's handler: a PNG dropped on
    the enabled uploader starts the upload, a text file does not, and a
    disabled uploader ignores the drop. *)
Lemma drop_reaches_parent_witness :
  let upload :=
    App.handleFileUpload Scenario.scenarioB
      (fun _ => Resolved (lit "<p>s</p>")) (fun _ => 0%Z) in
  let u0 := {| DocumentUploader.isDragging := true;
               DocumentUploader.validationError := None |} in
  snd (snd (fst (DocumentUploader.handleDrop upload false
                   [Scenario.pngFile; Scenario.txtFile]
                   (u0, App.initialState))))
  = snd (fst (upload Scenario.pngFile App.initialState))
  /\ snd (snd (fst (DocumentUploader.handleDrop upload false
                      [Scenario.txtFile] (u0, App.initialState))))
     = App.initialState
  /\ DocumentUploader.handleDrop upload true [Scenario.pngFile]
       (u0, App.initialState)
     = (Return tt,
        ({| DocumentUploader.isDragging := false;
            DocumentUploader.validationError := None |}, App.initialState),
        []).
Proof.
  cbv zeta. split; [|split].
  - apply (proj2 (proj2 (proj2
             (drop_reaches_parent_only_when_enabled_and_valid App.State
                (App.handleFileUpload Scenario.scenarioB
                   (fun _ => Resolved (lit "<p>s</p>")) (fun _ => 0%Z))
                false [Scenario.pngFile; Scenario.txtFile]
                {| DocumentUploader.isDragging := true;
                   DocumentUploader.validationError := None |}
                App.initialState)))
             Scenario.pngFile [Scenario.txtFile] true
             eq_refl eq_refl eq_refl).
  - apply (proj2 (proj2 (proj2
             (drop_reaches_parent_only_when_enabled_and_valid App.State
                (App.handleFileUpload Scenario.scenarioB
                   (fun _ => Resolved (lit "<p>s</p>")) (fun _ => 0%Z))
                false [Scenario.txtFile]
                {| DocumentUploader.isDragging := true;
                   DocumentUploader.validationError := None |}
                App.initialState)))
             Scenario.txtFile [] false
             eq_refl eq_refl eq_refl).
  - apply (proj1 (proj2 (proj2
             (drop_reaches_parent_only_when_enabled_and_valid App.State
                (App.handleFileUpload Scenario.scenarioB
                   (fun _ => Resolved (lit "<p>s</p>")) (fun _ => 0%Z))
                true [Scenario.pngFile]
                {| DocumentUploader.isDragging := true;
                   DocumentUploader.validationError := None |}
                App.initialState)))
             eq_refl).
Defined.
